(** * logo_extractor: a shallow embedding of [logo_extractor.py]

    The development follows the source file function by function:
    [get_domain], [find_logo_urls], [is_likely_logo], [download_logo],
    [process_website], [extract_logos_from_parquet] and the [__main__]
    block.

    Conventions.
    - A Python [str] or [bytes] value is a [string] (a list of 8-bit
      characters; text is read as its UTF-8 bytes), so [lower] changes
      the ASCII letters only.
    - Library calls whose result the program only passes along
      (the HTTP client, the HTML parser and serializer, the image decoder,
      relative URL resolution, the parquet reader) are fields of an
      environment record [Env]; a raised exception is the value [None].
    - The files are a finite map from path to content.  Whether
      [os.makedirs] and [open] return or raise is for the environment to
      say; once a file is open, writing to it completes. *)

From Stdlib Require Import ZArith QArith String Ascii List Bool Lia.
From stdpp Require Import gmap strings list.

#[local] Set Warnings "-register-all,-clear-no-such-hyp".
Local Open Scope string_scope.
Local Open Scope list_scope.

(** ** Python string operations *)

Module PyStr.

(** [s.startswith(p)]. *)
Definition startswith (s p : string) : bool := String.prefix p s.

(** [s.startswith((p1, p2, ...))]: a tuple of prefixes. *)
Definition startswith_any (s : string) (ps : list string) : bool :=
  existsb (startswith s) ps.

(** [s.endswith(p)]. *)
Definition endswith (s p : string) : bool :=
  let n := String.length s in
  let k := String.length p in
  (k <=? n)%nat && String.eqb (String.substring (n - k) k s) p.

Definition is_upper (c : ascii) : bool :=
  let n := nat_of_ascii c in (65 <=? n)%nat && (n <=? 90)%nat.

Definition is_lower (c : ascii) : bool :=
  let n := nat_of_ascii c in (97 <=? n)%nat && (n <=? 122)%nat.

Definition is_digit (c : ascii) : bool :=
  let n := nat_of_ascii c in (48 <=? n)%nat && (n <=? 57)%nat.

Definition lower_char (c : ascii) : ascii :=
  if is_upper c then ascii_of_nat (nat_of_ascii c + 32) else c.

(** [s.lower()]. *)
Fixpoint lower (s : string) : string :=
  match s with
  | EmptyString => EmptyString
  | String c s' => String (lower_char c) (lower s')
  end.

(** [needle in hay]. *)
Fixpoint contains (needle hay : string) : bool :=
  String.prefix needle hay
  || match hay with
     | EmptyString => false
     | String _ hay' => contains needle hay'
     end.

(** [c in s] for a single character. *)
Fixpoint mem_char (c : ascii) (s : string) : bool :=
  match s with
  | EmptyString => false
  | String d s' => Ascii.eqb c d || mem_char c s'
  end.

(** [sep.join(parts)]. *)
Definition join (sep : string) (parts : list string) : string :=
  String.concat sep parts.

(** [s.split(sep)] for a non-empty separator, scanning left to right for
    non-overlapping occurrences.  [skip] counts the characters of an
    occurrence still to be stepped over and [cur] holds the current piece
    in reverse. *)
Fixpoint split_aux (sep : string) (skip : nat) (cur : list ascii) (s : string)
  : list string :=
  match s with
  | EmptyString => [string_of_list_ascii (rev cur)]
  | String c s' =>
      match skip with
      | S k => split_aux sep k cur s'
      | O =>
          if String.prefix sep s
          then string_of_list_ascii (rev cur)
                 :: split_aux sep (String.length sep - 1) [] s'
          else split_aux sep 0 (c :: cur) s'
      end
  end.

Definition split (s sep : string) : list string := split_aux sep 0 [] s.

(** Truthiness of a string: [if s:]. *)
Definition truthy (s : string) : bool :=
  match s with EmptyString => false | _ => true end.

End PyStr.

(** ** [urllib.parse] and [os.path] *)

Module Url.

Import PyStr.

(** The characters [urlsplit] removes from a URL before reading it:
    tab, line feed, carriage return. *)
Definition unsafe_char (c : ascii) : bool :=
  let n := nat_of_ascii c in
  (n =? 9)%nat || (n =? 10)%nat || (n =? 13)%nat.

Fixpoint remove_unsafe (s : string) : string :=
  match s with
  | EmptyString => EmptyString
  | String c s' =>
      if unsafe_char c then remove_unsafe s' else String c (remove_unsafe s')
  end.

(** [scheme_chars]: letters, digits and [+-.]. *)
Definition scheme_char (c : ascii) : bool :=
  is_upper c || is_lower c || is_digit c || mem_char c "+-.".

(** [url.find(':')] with the two sides of the first colon. *)
Fixpoint cut_colon (s : string) : option (string * string) :=
  match s with
  | EmptyString => None
  | String c s' =>
      if Ascii.eqb c ":" then Some (EmptyString, s')
      else match cut_colon s' with
           | Some (a, b) => Some (String c a, b)
           | None => None
           end
  end.

Fixpoint all_chars (p : ascii -> bool) (s : string) : bool :=
  match s with
  | EmptyString => true
  | String c s' => p c && all_chars p s'
  end.

(** The scheme and the rest, as [urlsplit] reads them. *)
Definition split_scheme (url : string) : string * string :=
  match cut_colon url with
  | Some (String c0 pre, rest) =>
      if (is_upper c0 || is_lower c0) && all_chars scheme_char (String c0 pre)
      then (lower (String c0 pre), rest)
      else (EmptyString, url)
  | _ => (EmptyString, url)
  end.

(** [_WHATWG_C0_CONTROL_OR_SPACE]: the characters up to the space. *)
Definition c0_or_space (c : ascii) : bool := (nat_of_ascii c <=? 32)%nat.

(** [url.lstrip(_WHATWG_C0_CONTROL_OR_SPACE)]. *)
Fixpoint lstrip_c0 (s : string) : string :=
  match s with
  | EmptyString => EmptyString
  | String c s' => if c0_or_space c then lstrip_c0 s' else s
  end.

Definition is_delim (c : ascii) : bool := mem_char c "/?#".

(** [_splitnetloc]: the text up to the first of [/], [?], [#]. *)
Fixpoint until_delim (s : string) : string :=
  match s with
  | EmptyString => EmptyString
  | String c s' => if is_delim c then EmptyString else String c (until_delim s')
  end.

(** The network location as [urlsplit] cuts it out, before it checks it:
    leading control characters and spaces stripped, unsafe characters
    removed, the scheme cut off, and, when the rest starts with [//], the
    text up to the first delimiter; empty otherwise. *)
Definition netloc_text (url : string) : string :=
  let '(_, rest) := split_scheme (remove_unsafe (lstrip_c0 url)) in
  match rest with
  | String c1 (String c2 r) =>
      if Ascii.eqb c1 "/" && Ascii.eqb c2 "/" then until_delim r else EmptyString
  | _ => EmptyString
  end.

(** [s.partition(c)] for a single character: the text before the first
    occurrence, whether there is one, and the text after it. *)
Fixpoint partition_char (c : ascii) (s : string) : string * bool * string :=
  match s with
  | EmptyString => (EmptyString, false, EmptyString)
  | String d s' =>
      if Ascii.eqb d c then (EmptyString, true, s')
      else let '(before, found, after) := partition_char c s' in
           (String d before, found, after)
  end.

(** [s.rpartition(c)[2]]: the text after the last occurrence of [c], the
    whole text when there is none. *)
Fixpoint after_last (c : ascii) (s : string) : string :=
  match s with
  | EmptyString => EmptyString
  | String d s' =>
      if mem_char c s' then after_last c s'
      else if Ascii.eqb d c then s' else s
  end.

(** [s.replace(c, '')] for each character [c] of [cs]. *)
Fixpoint remove_chars (cs s : string) : string :=
  match s with
  | EmptyString => EmptyString
  | String c s' =>
      if mem_char c cs then remove_chars cs s' else String c (remove_chars cs s')
  end.

(** [s.isascii()], on the UTF-8 bytes of the text. *)
Definition is_ascii (c : ascii) : bool := (nat_of_ascii c <? 128)%nat.

(** [os.path.join(a, b)] on a POSIX system. *)
Definition path_join (a b : string) : string :=
  if startswith b "/" then b
  else if negb (truthy a) || endswith a "/" then a +:+ b
  else a +:+ "/" +:+ b.

End Url.

(** ** URL normalization *)

Import PyStr Url.

(** [url.startswith(('http://', 'https://'))]. *)
Definition has_scheme (url : string) : bool :=
  startswith_any url ["http://"; "https://"].

(** The first statement of both [get_domain] and [find_logo_urls]:
    [if not url.startswith(('http://', 'https://')): url = 'https://' + url]. *)
Definition normalize (url : string) : string :=
  if negb (has_scheme url) then "https://" +:+ url else url.

(** ** The environment: library calls and the world they act on *)

(** What the program reads of a [requests] response.  [content_type] is
    the [content-type] header when the response carries one. *)
Record Response := mkResponse {
  status_code : Z;
  text : string;
  content : string;
  content_type : option string;
}.

(** A BeautifulSoup attribute value: a string, or a list of strings for
    the multi-valued attributes ([class], [rel]). *)
Inductive AttrValue :=
| AStr (s : string)
| AList (l : list string).

(** A parsed element: its name, its attribute dictionary and its child
    elements in document order.  The root is the soup object itself. *)
Inductive Tag :=
| mkTag (name : string) (attrs : gmap string AttrValue) (children : list Tag).

Definition tag_name (t : Tag) : string := let 'mkTag n _ _ := t in n.
Definition tag_attrs (t : Tag) : gmap string AttrValue := let 'mkTag _ a _ := t in a.

(** A pandas data frame, as far as the program reads it: named columns
    whose cells are strings or missing. *)
Definition DataFrame := gmap string (list (option string)).

Class Env := {
  (** State of the network, as seen through the HTTP client. *)
  Net : Type;
  (** [requests.get(url, headers=..., timeout=10)]; [None] when it raises. *)
  requests_get : string -> Net -> option Response * Net;
  (** [BeautifulSoup(html, 'html.parser')]. *)
  html_parse : string -> Tag;
  (** [str(tag)]: the serialized markup of an element. *)
  tag_str : Tag -> string;
  (** [urljoin(base, url)] for non-empty arguments; [None] when it raises. *)
  urljoin_resolve : string -> string -> option string;
  (** [urlparse(url).path]; [None] when [urlparse] raises. *)
  urlparse_path : string -> option string;
  (** [Image.open(BytesIO(data)).size]; [None] when decoding raises. *)
  image_size : string -> option (Z * Z);
  (** [pd.read_parquet(path)]; [None] when it raises. *)
  read_parquet : string -> option DataFrame;
  (** [unicodedata.normalize('NFKC', s)]. *)
  nfkc : string -> string;
  (** [_check_bracketed_host(hostname)] of [urllib.parse], which reads the
      host as an IP address: [true] when it returns, [false] when it
      raises. *)
  check_bracketed_host : string -> bool;
  (** [os.makedirs(path, exist_ok=True)]: [true] when it returns, [false]
      when it raises. *)
  os_makedirs : string -> bool;
  (** [open(path, mode)] for writing: [true] when the file is opened,
      [false] when [open] raises. *)
  file_open : string -> bool;
}.

(** The world a site processing runs in.  [calls] is the log of the
    [download_logo] invocations, oldest first, as a call-counting mock of
    the fetcher would record them. *)
Record World `{Env} := mkWorld {
  net : Net;
  files : gmap string string;
  calls : list string;
}.

Section Program.

Context `{E : Env}.

Definition set_net (n : Net) (w : World) : World :=
  mkWorld _ n (files w) (calls w).

(** [f.write(data)] on the file opened at [path]. *)
Definition write_file (path data : string) (w : World) : World :=
  mkWorld _ (net w) (<[path := data]> (files w)) (calls w).

Definition log_call (url : string) (w : World) : World :=
  mkWorld _ (net w) (files w) (calls w ++ [url]).

(** ** Domain normalizer: [get_domain] *)

(** [_check_bracketed_netloc(netloc)]: [false] when it raises. *)
Definition check_bracketed_netloc (netloc : string) : bool :=
  let hostname_and_port := after_last "@" netloc in
  let '(before_bracket, have_open_br, bracketed) :=
    partition_char "[" hostname_and_port in
  if have_open_br then
    if truthy before_bracket then false
    else
      let '(hostname, _, port) := partition_char "]" bracketed in
      if truthy port && negb (startswith port ":") then false
      else check_bracketed_host hostname
  else
    let '(hostname, _, _) := partition_char ":" hostname_and_port in
    check_bracketed_host hostname.

(** [_checknetloc(netloc)]: [false] when it raises, which it does for a
    non-ASCII netloc whose NFKC form differs from it and holds one of
    [/?#@:]. *)
Definition checknetloc (netloc : string) : bool :=
  if negb (truthy netloc) || all_chars is_ascii netloc then true
  else
    let n := remove_chars "@:#?" netloc in
    let netloc2 := nfkc n in
    if String.eqb n netloc2 then true
    else negb (existsb (fun c => mem_char c netloc2)
                 ["/"; "?"; "#"; "@"; ":"]%char).

(** [urlparse(url).netloc]; [None] stands for the [ValueError] that
    [urlsplit] raises on a netloc with one square bracket but not the
    other, on a bracketed host that is no IP address, and on a netloc
    that NFKC normalization would split. *)
Definition urlparse_netloc (url : string) : option string :=
  let netloc := netloc_text url in
  if xorb (mem_char "[" netloc) (mem_char "]" netloc) then None
  else if mem_char "[" netloc && mem_char "]" netloc
          && negb (check_bracketed_netloc netloc) then None
  else if negb (checknetloc netloc) then None
  else Some netloc.

Definition get_domain (url : string) : option string :=
  let url := normalize url in
  let domain := urlparse_netloc url in
  domain.

(** ** HTML candidate scanner: [find_logo_urls] *)

(** [soup.find_all(name)]: the descendants with that name, in document
    order. *)
Fixpoint descendants (t : Tag) : list Tag :=
  match t with
  | mkTag _ _ cs =>
      (fix go (l : list Tag) : list Tag :=
         match l with
         | [] => []
         | c :: l' => c :: descendants c ++ go l'
         end) cs
  end.

Definition find_all (soup : Tag) (name : string) : list Tag :=
  filter (fun t => tag_name t = name) (descendants soup).

(** [tag.get(key, default)]. *)
Definition tag_get (t : Tag) (key : string) (default : AttrValue) : AttrValue :=
  match tag_attrs t !! key with
  | Some v => v
  | None => default
  end.

(** [v.lower()]: only a string has the method. *)
Definition attr_lower (v : AttrValue) : option string :=
  match v with
  | AStr s => Some (lower s)
  | AList _ => None
  end.

Fixpoint chars (s : string) : list string :=
  match s with
  | EmptyString => []
  | String c s' => String c EmptyString :: chars s'
  end.

(** [' '.join(v).lower()]: joining iterates a list by items and a string
    by characters. *)
Definition attr_join_lower (v : AttrValue) : string :=
  match v with
  | AList l => lower (join " " l)
  | AStr s => lower (join " " (chars s))
  end.

(** [any(term in attr for term in terms for attr in attrs)]. *)
Definition any_term_in (terms attrs : list string) : bool :=
  existsb (fun term => existsb (fun attr => contains term attr) attrs) terms.

(** [urljoin(base, url)]. *)
Definition urljoin (base url : string) : option string :=
  if negb (truthy base) then Some url
  else if negb (truthy url) then Some base
  else urljoin_resolve base url.

(** A [for] loop whose body updates [logo_urls] and may raise. *)
Fixpoint for_each {A} (body : A -> list string -> option (list string))
    (xs : list A) (logo_urls : list string) : option (list string) :=
  match xs with
  | [] => Some logo_urls
  | x :: xs' =>
      match body x logo_urls with
      | Some logo_urls' => for_each body xs' logo_urls'
      | None => None
      end
  end.

(** Method 1, the body of [for img in soup.find_all('img')]. *)
Definition method1 (url : string) (img : Tag) (logo_urls : list string)
  : option (list string) :=
  let img_src := tag_get img "src" (AStr "") in
  img_alt ← attr_lower (tag_get img "alt" (AStr ""));
  let img_class := attr_join_lower (tag_get img "class" (AList [])) in
  img_id ← attr_lower (tag_get img "id" (AStr ""));
  img_src_lower ← attr_lower img_src;
  if any_term_in ["logo"; "brand"; "header-image"]
       [img_src_lower; img_alt; img_class; img_id]
  then
    match img_src with
    | AStr src => img_url ← urljoin url src; Some (logo_urls ++ [img_url])
    | AList _ => None
    end
  else Some logo_urls.

(** Method 2, the body of [for link in soup.find_all('link')]. *)
Definition method2 (url : string) (link : Tag) (logo_urls : list string)
  : option (list string) :=
  let rel :=
    match tag_get link "rel" (AList []) with
    | AList l => lower (join " " l)
    | AStr s => lower s
    end in
  if any_term_in ["icon"; "shortcut icon"; "apple-touch-icon"] [rel]
  then
    match tag_get link "href" (AStr "") with
    | AStr href =>
        if truthy href
        then icon_url ← urljoin url href; Some (logo_urls ++ [icon_url])
        else Some logo_urls
    | AList [] => Some logo_urls
    | AList (_ :: _) => None
    end
  else Some logo_urls.

(** Method 3, the body of [for svg in soup.find_all('svg')]. *)
Definition method3 (svg : Tag) (logo_urls : list string)
  : option (list string) :=
  let svg_class := attr_join_lower (tag_get svg "class" (AList [])) in
  svg_id ← attr_lower (tag_get svg "id" (AStr ""));
  if any_term_in ["logo"; "brand"] [svg_class; svg_id]
  then
    let svg_str := tag_str svg in
    Some (logo_urls ++ ["data:image/svg+xml;base64," +:+ svg_str])
  else Some logo_urls.

(** The three loops over the parsed page, in program order. *)
Definition scan_soup (url : string) (soup : Tag) : option (list string) :=
  let logo_urls := [] in
  logo_urls ← for_each (method1 url) (find_all soup "img") logo_urls;
  logo_urls ← for_each (method2 url) (find_all soup "link") logo_urls;
  logo_urls ← for_each method3 (find_all soup "svg") logo_urls;
  Some logo_urls.

Definition find_logo_urls (url : string) (w : World) : list string * World :=
  let url := normalize url in
  match requests_get url (net w) with
  | (None, n) => ([], set_net n w)
  | (Some response, n) =>
      let w := set_net n w in
      if negb (status_code response =? 200)%Z then ([], w)
      else
        let soup := html_parse (text response) in
        match scan_soup url soup with
        | Some logo_urls => (logo_urls, w)
        | None => ([], w)
        end
  end.

(** ** Image validator: [is_likely_logo] *)

(** [a / b] on integers: true division, raising [ZeroDivisionError]
    ([None]) when [b] is zero.  The quotient is kept exact; for image
    dimensions the float the program computes compares with 4 the same
    way. *)
Definition true_div (a b : Z) : option Q :=
  if (b =? 0)%Z then None else Some (inject_Z a / inject_Z b)%Q.

(** [r > 4]. *)
Definition exceeds (r : Q) (bound : Q) : bool := negb (Qle_bool r bound).

Definition is_likely_logo (image_content : string) (min_size max_size : Z) : bool :=
  match image_size image_content with
  | None => false
  | Some (width, height) =>
      if (width <? min_size)%Z || (height <? min_size)%Z then false
      else if (width >? max_size)%Z || (height >? max_size)%Z then false
      else if ((width =? 16)%Z && (height =? 16)%Z)
              || ((width =? 32)%Z && (height =? 32)%Z) then true
      else
        match true_div (Z.max width height) (Z.min width height) with
        | None => false
        | Some aspect_ratio =>
            if exceeds aspect_ratio 4 then false else true
        end
  end.

(** ** Logo fetcher: [download_logo] *)

(** The extension chosen from the content type, and from the URL path
    when the content type names none. *)
Definition extension (content_type url : string) : option string :=
  if contains "png" content_type then Some ".png"
  else if contains "jpg" content_type || contains "jpeg" content_type then Some ".jpg"
  else if contains "svg" content_type then Some ".svg"
  else if contains "ico" content_type then Some ".ico"
  else
    path ← urlparse_path url;
    let url_path := lower path in
    if endswith url_path ".png" then Some ".png"
    else if endswith url_path ".jpg" || endswith url_path ".jpeg" then Some ".jpg"
    else if endswith url_path ".svg" then Some ".svg"
    else if endswith url_path ".ico" then Some ".ico"
    else Some ".png".

(** The body of [download_logo] inside its [try]; an exception, caught
    by the handler, ends it with [None]. *)
Definition download_logo_body (url domain output_folder : string) (w : World)
  : option string * World :=
  if startswith url "data:image/svg+xml;base64," then
    match split url "base64," !! 1%nat with
    | Some svg_content =>
        let file_path := path_join output_folder (domain +:+ " - logo.svg") in
        if file_open file_path
        then (Some file_path, write_file file_path svg_content w)
        else (None, w)
    | None => (None, w)
    end
  else
    match requests_get url (net w) with
    | (None, n) => (None, set_net n w)
    | (Some response, n) =>
        let w := set_net n w in
        if negb (status_code response =? 200)%Z then (None, w)
        else if negb (is_likely_logo (content response) 16 500) then (None, w)
        else
          let content_type := lower (default "" (content_type response)) in
          match extension content_type url with
          | Some ext =>
              let file_path :=
                path_join output_folder (domain +:+ " - logo" +:+ ext) in
              if file_open file_path
              then (Some file_path, write_file file_path (content response) w)
              else (None, w)
          | None => (None, w)
          end
    end.

Definition download_logo (url domain output_folder : string) (w : World)
  : option string * World :=
  download_logo_body url domain output_folder (log_call url w).

(** ** Site processor: [process_website] *)

(** [if file_path:] on the result of [download_logo]. *)
Definition truthy_path (file_path : option string) : bool :=
  match file_path with
  | Some p => truthy p
  | None => false
  end.

(** The loop [for url in logo_urls: ... break]; the result is [success]. *)
Fixpoint download_first (logo_urls : list string) (domain output_folder : string)
    (w : World) : bool * World :=
  match logo_urls with
  | [] => (false, w)
  | url :: rest =>
      let '(file_path, w) := download_logo url domain output_folder w in
      if truthy_path file_path then (true, w)
      else download_first rest domain output_folder w
  end.

(** How a site processing ends. *)
Inductive Outcome :=
| Raised            (* [get_domain] raised *)
| NoCandidates      (* the scanner returned no candidate *)
| Finished (success : bool).

Definition process_website (website output_folder : string) (w : World)
  : Outcome * World :=
  match get_domain website with
  | None => (Raised, w)
  | Some domain =>
      let '(logo_urls, w) := find_logo_urls website w in
      match logo_urls with
      | [] => (NoCandidates, w)
      | _ :: _ =>
          let '(success, w) := download_first logo_urls domain output_folder w in
          (Finished success, w)
      end
  end.

(** ** Batch runner: [extract_logos_from_parquet] *)

(** [series.dropna()]. *)
Definition dropna (column : list (option string)) : list string :=
  omap id column.

(** [series.unique()]: the values in order of first appearance; [seen]
    is the table of values met so far. *)
Fixpoint unique_from (seen : gset string) (values : list string) : list string :=
  match values with
  | [] => []
  | v :: rest =>
      if decide (v ∈ seen) then unique_from seen rest
      else v :: unique_from ({[v]} ∪ seen) rest
  end.

Definition unique (values : list string) : list string := unique_from ∅ values.


(** ** The [__main__] block *)




End Program.

(** ** Reference definitions the properties are stated against *)

(** The validator's decision list as the specification words it: lower
    bound, upper bound, favicon sizes, then the aspect ratio (larger over
    smaller dimension above 4, stated without division). *)
Definition validator_spec (min_size max_size width height : Z) : bool :=
  if ((width <? min_size) || (height <? min_size))%Z then false
  else if ((max_size <? width) || (max_size <? height))%Z then false
  else if bool_decide ((width, height) = (16, 16)%Z \/ (width, height) = (32, 32)%Z)
  then true
  else if (4 * Z.min width height <? Z.max width height)%Z then false
  else true.

Section Reference.

Context `{E : Env}.

(** What one loop body adds to an empty result list. *)
Definition emitted {A} (body : A -> list string -> option (list string)) (x : A)
  : option (list string) :=
  body x [].

(** A loop body that only appends to the list it is given. *)
Definition appends {A} (body : A -> list string -> option (list string)) : Prop :=
  forall x logo_urls, body x logo_urls = app logo_urls <$> body x [].

(** The scanner's output as the specification words it: the matches of the
    three heuristics one after the other, each in document order;
    [None] when some element makes the scan raise. *)
Definition scanner_spec (url : string) (soup : Tag) : option (list string) :=
  h1 ← mapM (emitted (method1 url)) (find_all soup "img");
  h2 ← mapM (emitted (method2 url)) (find_all soup "link");
  h3 ← mapM (emitted method3) (find_all soup "svg");
  Some (concat h1 ++ concat h2 ++ concat h3).

(** Downloading the candidates one after the other, each without a
    result; the world after the last one. *)
Fixpoint all_fail (logo_urls : list string) (domain output_folder : string)
    (w : World) : option World :=
  match logo_urls with
  | [] => Some w
  | url :: rest =>
      match download_logo url domain output_folder w with
      | (None, w') => all_fail rest domain output_folder w'
      | (Some _, _) => None
      end
  end.

(** The file a site's logo can be written to, for one extension. *)
Definition target (output_folder domain ext : string) : string :=
  path_join output_folder (domain +:+ " - logo" +:+ ext).

Definition extensions : list string := [".png"; ".jpg"; ".svg"; ".ico"].

(** Processing [site] from world [w] writes the file at [path]: the file
    is created or its content changes. *)
Definition writes (site output_folder : string) (w : World) (path : string) : Prop :=
  files (snd (process_website site output_folder w)) !! path <> files w !! path.

End Reference.

(** ** A test double of the environment

    A small fixed web: the page of [a.com] and a few images, a request
    log as network state, and a parquet file with one column.  The file
    system refuses to create a folder of empty name and to open a path of
    more than 255 characters. *)
Module Mock.

Definition str_eq (a b : string) : bool := String.eqb a b.

Definition page_markup : string := "<html>a.com</html>".

Definition served (url : string) : option Response :=
  if str_eq url "https://a.com"
  then Some (mkResponse 200 page_markup page_markup (Some "text/html"))
  else if str_eq url "https://a.com/banner.png"
  then Some (mkResponse 200 "" "banner" (Some "image/png"))
  else if str_eq url "https://a.com/logo.png"
  then Some (mkResponse 200 "" "logo" (Some "IMAGE/PNG"))
  else if str_eq url "https://a.com/favicon.ico"
  then Some (mkResponse 200 "" "fav16" None)
  else if str_eq url "https://a.com/gone.png"
  then Some (mkResponse 404 "" "logo" (Some "image/png"))
  else None.

Definition sizes (data : string) : option (Z * Z) :=
  if str_eq data "tiny" then Some (10, 10)%Z
  else if str_eq data "fav16" then Some (16, 16)%Z
  else if str_eq data "fav32" then Some (32, 32)%Z
  else if str_eq data "huge" then Some (600, 600)%Z
  else if str_eq data "banner" then Some (100, 500)%Z
  else if str_eq data "logo" then Some (100, 300)%Z
  else None.

Definition leaf (name : string) (attrs : list (string * AttrValue)) : Tag :=
  mkTag name (list_to_map attrs) [].

(** The page of [a.com]: an inline SVG and two favicon links in the head
    (the second without [href]), then five images: a banner, a photo, the
    logo twice, and one without [src]. *)
Definition page : Tag :=
  mkTag "[document]" ∅
    [ mkTag "head" ∅
        [ leaf "svg" [("class", AList ["site-logo"])];
          leaf "link" [("rel", AList ["shortcut"; "icon"]); ("href", AStr "/favicon.ico")];
          leaf "link" [("rel", AList ["icon"])] ];
      mkTag "body" ∅
        [ mkTag "div" (list_to_map [("class", AList ["brand"])])
            [ leaf "img" [("src", AStr "/banner.png"); ("alt", AStr "Our LOGO")] ];
          leaf "img" [("src", AStr "/photo.png"); ("alt", AStr "team")];
          leaf "img" [("src", AStr "/logo.png")];
          leaf "img" [("src", AStr "/logo.png")];
          leaf "img" [("alt", AStr "Company logo")] ] ].

Definition resolve (base url : string) : option string :=
  if has_scheme url then Some url else Some (base +:+ url).

Definition frame : DataFrame :=
  {[ "domain" := [Some "a.com"; Some "a.com"; Some "b.com"; None] ]}.

Definition env : Env := {|
  Net := list string;
  requests_get := fun url log => (served url, log ++ [url]);
  html_parse := fun _ => page;
  tag_str := fun _ => "<svg class=site-logo></svg>";
  urljoin_resolve := resolve;
  urlparse_path := fun url => Some url;
  image_size := sizes;
  read_parquet := fun path => if str_eq path "sites.parquet" then Some frame else None;
  nfkc := fun s => s;
  check_bracketed_host := fun host => str_eq host "::1";
  os_makedirs := fun path => truthy path;
  file_open := fun path => (String.length path <=? 255)%nat;
|}.

(** An inline SVG as BeautifulSoup serializes it, with an embedded
    raster image: the markup itself contains the text [base64,]. *)
Definition dq : string := String "034" "".

Definition embedded_svg : string :=
  "<svg class=" +:+ dq +:+ "logo" +:+ dq +:+ "><image href=" +:+ dq
  +:+ "data:image/png;base64,iVBORw0KGgo=" +:+ dq +:+ "></image></svg>".

(** The world before anything ran: no request made, no file written. *)
Definition start : @World env := @mkWorld env [] ∅ [].

End Mock.

(** ** More reference definitions and a second test double *)

(** The text the link heuristic searches: the [rel] attribute, joined by
    spaces when it is a list, in lower case. *)
Definition rel_text (link : Tag) : string :=
  match tag_get link "rel" (AList []) with
  | AList l => lower (join " " l)
  | AStr s => lower s
  end.

(** A character a plain host may hold: an ASCII character that is no
    delimiter, no square bracket and none that [urlsplit] removes. *)
Definition host_char (c : ascii) : bool :=
  is_ascii c && negb (is_delim c) && negb (unsafe_char c)
  && negb (mem_char c "[]").

(** What follows a host in a URL: nothing, or a part that starts with
    [/], [?] or [#]. *)
Definition after_host (rest : string) : Prop :=
  rest = "" \/ exists c r, rest = String c r /\ is_delim c = true.

(** The site [b.com]: its page is served, but one image is gone, the
    other is too large, and the favicon cannot be fetched. *)
Module Mock2.

Definition page_markup : string := "<html>b.com</html>".

Definition served (url : string) : option Response :=
  if String.eqb url "https://b.com"
  then Some (mkResponse 200 page_markup page_markup (Some "text/html"))
  else if String.eqb url "https://b.com/logo.png"
  then Some (mkResponse 404 "" "" None)
  else if String.eqb url "https://b.com/big-logo.png"
  then Some (mkResponse 200 "" "huge" (Some "image/png"))
  else if String.eqb url "https://b.com/wide.jpg"
  then Some (mkResponse 200 "" "wide" (Some "Image/PNG; q=1"))
  else None.

Definition sizes (data : string) : option (Z * Z) :=
  if String.eqb data "huge" then Some (600, 600)%Z
  else if String.eqb data "wide" then Some (400, 100)%Z
  else if String.eqb data "empty" then Some (0, 0)%Z
  else None.

Definition page : Tag :=
  mkTag "[document]" ∅
    [ Mock.leaf "link" [("rel", AList ["mask-icon"]); ("href", AStr "/favicon.ico")];
      Mock.leaf "img" [("src", AStr "/logo.png")];
      Mock.leaf "img" [("src", AStr "/big-logo.png")];
      Mock.leaf "img" [("src", AStr "/team.png")] ].

Definition frames (path : string) : option DataFrame :=
  if String.eqb path "clean.parquet"
  then Some {[ "domain" := [Some "b.com"; None; Some "a.com"] ]}
  else if String.eqb path "nulls.parquet"
  then Some {[ "domain" := [None; None] ]}
  else None.

Definition env : Env := {|
  Net := list string;
  requests_get := fun url log => (served url, log ++ [url]);
  html_parse := fun _ => page;
  tag_str := fun _ => "<svg></svg>";
  urljoin_resolve := Mock.resolve;
  urlparse_path := fun url => Some url;
  image_size := sizes;
  read_parquet := frames;
  nfkc := fun s => s;
  check_bracketed_host := fun host => String.eqb host "::1";
  os_makedirs := fun path => truthy path;
  file_open := fun path => (String.length path <=? 255)%nat;
|}.

Definition start : @World env := @mkWorld env [] ∅ [].

End Mock2.

(** The site [c.com]: its page holds a logo image and a favicon link whose
    [href] is [//[], a network location with an opening bracket only, on
    which [urljoin] raises [ValueError] as [urlsplit] does.  NFKC
    normalization turns the character U+2100 (the bytes 226, 132, 128)
    into [a/c]. *)
Module Mock3.

Definition page_markup : string := "<html>c.com</html>".

Definition served (url : string) : option Response :=
  if String.eqb url "https://c.com"
  then Some (mkResponse 200 page_markup page_markup (Some "text/html"))
  else if String.eqb url "https://c.com/logo.png"
  then Some (mkResponse 200 "" "logo" (Some "image/png"))
  else None.

Definition logo_img : Tag := Mock.leaf "img" [("src", AStr "/logo.png")].

Definition icon_link : Tag :=
  Mock.leaf "link" [("rel", AList ["icon"]); ("href", AStr "//[")].

Definition page : Tag := mkTag "[document]" ∅ [logo_img; icon_link].

Definition resolve (base url : string) : option string :=
  if String.eqb url "//[" then None else Mock.resolve base url.

Definition account_of : string := String "226" (String "132" (String "128" "")).

Definition normalize_nfkc (s : string) : string :=
  if String.eqb s ("a.com" +:+ account_of) then "a.coma/c" else s.

Definition env : Env := {|
  Net := list string;
  requests_get := fun url log => (served url, log ++ [url]);
  html_parse := fun _ => page;
  tag_str := fun _ => "<svg></svg>";
  urljoin_resolve := resolve;
  urlparse_path := fun url => Some url;
  image_size := Mock.sizes;
  read_parquet := fun _ => None;
  nfkc := normalize_nfkc;
  check_bracketed_host := fun host => String.eqb host "::1";
  os_makedirs := fun path => truthy path;
  file_open := fun path => (String.length path <=? 255)%nat;
|}.

Definition start : @World env := @mkWorld env [] ∅ [].

End Mock3.

(** * Properties *)

(** ** The models on concrete inputs *)

Example split_examples :
  split "a, b, c" ", " = ["a"; "b"; "c"]
  /\ split "aaa" "aa" = [""; "a"]
  /\ split "xbase64,ybase64," "base64," = ["x"; "y"; ""]
  /\ split "no separator" "base64," = ["no separator"].
Proof. repeat split. Qed.

Example path_examples :
  path_join "logo" "a.com - logo.png" = "logo/a.com - logo.png"
  /\ path_join "logo/" "a.com - logo.png" = "logo/a.com - logo.png"
  /\ path_join "" "a.com - logo.png" = "a.com - logo.png"
  /\ path_join "logo" "/etc" = "/etc"
  /\ endswith "a/b.png" ".png" = true
  /\ endswith "png" ".png" = false.
Proof. repeat split. Qed.

Example get_domain_examples :
  @get_domain Mock.env "http://Example.com:8080?q#f" = Some "Example.com:8080"
  /\ @get_domain Mock.env "a.com/x/y" = Some "a.com"
  /\ @get_domain Mock.env "HTTP://a.com" = Some "HTTP:"
  /\ @get_domain Mock.env "https://[::1" = None
  /\ @get_domain Mock.env "https://[::1]:8080/x" = Some "[::1]:8080"
  /\ @get_domain Mock.env "https://[foo]/x" = None
  /\ @get_domain Mock.env "https://user@[::1]x/" = None
  /\ @get_domain Mock3.env ("https://a.com" +:+ Mock3.account_of +:+ "/x") = None.
Proof. repeat split. Qed.

Example mock_scan :
  fst (@find_logo_urls Mock.env "a.com" Mock.start)
  = ["https://a.com/banner.png"; "https://a.com/logo.png"; "https://a.com/logo.png";
     "https://a.com"; "https://a.com/favicon.ico";
     "data:image/svg+xml;base64,<svg class=site-logo></svg>"].
Proof. vm_compute. reflexivity. Qed.

Example mock_process :
  let '(o, w) := @process_website Mock.env "a.com" "logo" Mock.start in
  o = Finished true
  /\ map_to_list (files w) = [("logo/a.com - logo.png", "logo")]
  /\ calls w = ["https://a.com/banner.png"; "https://a.com/logo.png"]
  /\ net w = ["https://a.com"; "https://a.com/banner.png"; "https://a.com/logo.png"].
Proof. vm_compute. repeat split. Qed.


(** ** Strings *)

Section StringFacts.

Lemma append_nil_l (s : string) : "" +:+ s = s.
Proof. reflexivity. Qed.

Lemma append_cons (c : ascii) (a b : string) :
  String c a +:+ b = String c (a +:+ b).
Proof. reflexivity. Qed.


Lemma append_assoc (a b c : string) : (a +:+ b) +:+ c = a +:+ b +:+ c.
Proof.
  induction a as [|x a IH]; [reflexivity|].
  rewrite !append_cons, IH. reflexivity.
Qed.

Lemma append_length (a b : string) :
  String.length (a +:+ b) = (String.length a + String.length b)%nat.
Proof.
  induction a as [|x a IH]; [reflexivity|].
  rewrite append_cons. simpl. rewrite IH. reflexivity.
Qed.

Lemma append_inj_l (a x y : string) : a +:+ x = a +:+ y -> x = y.
Proof.
  induction a as [|c a IH]; [auto|].
  rewrite !append_cons. intros [=]. auto.
Qed.

(** Two concatenations with right parts of one length agree part by part. *)
Lemma append_inj_same_length (x y s t : string) :
  String.length s = String.length t ->
  x +:+ s = y +:+ t -> x = y /\ s = t.
Proof.
  revert y. induction x as [|c x IH]; intros [|d y] Hlen Heq.
  - auto.
  - apply (f_equal String.length) in Heq.
    rewrite append_nil_l, append_length in Heq. simpl in Heq. lia.
  - apply (f_equal String.length) in Heq.
    rewrite append_nil_l, append_length in Heq. simpl in Heq. lia.
  - rewrite !append_cons in Heq. injection Heq as -> Heq.
    destruct (IH y Hlen Heq) as [-> ->]. auto.
Qed.

Lemma prefix_append (p s : string) : String.prefix p (p +:+ s) = true.
Proof.
  induction p as [|c p IH]; [destruct s; reflexivity|].
  rewrite append_cons. simpl.
  destruct (ascii_dec c c) as [_|Hne]; [exact IH | now elim Hne].
Qed.

Lemma truthy_append_r (a b : string) : truthy b = true -> truthy (a +:+ b) = true.
Proof. destruct a; [auto | reflexivity]. Qed.

End StringFacts.

(** ** Domain normalizer *)

Section DomainNormalizer.

Context `{E : Env}.

Lemma has_scheme_normalize (url : string) : has_scheme (normalize url) = true.
Proof.
  unfold normalize. destruct (has_scheme url) eqn:Hs; simpl; [exact Hs|].
  unfold has_scheme, startswith_any, startswith. cbn [existsb].
  rewrite (prefix_append "https://" url). rewrite orb_true_l. apply orb_true_r.
Qed.

(** C4. A site that does not start with [http://] or [https://] gets
    [https://] prepended, exactly once (the result carries a scheme, so
    normalizing again changes nothing); a site that starts with one of
    them is returned unchanged; [get_domain] is the network location of
    the normalized site, and it is [example.com] both for
    [https://example.com/path] and for [example.com]. *)
Theorem normalize_get_domain (site : string) :
  normalize site = (if has_scheme site then site else "https://" +:+ site)
  /\ has_scheme (normalize site) = true
  /\ normalize (normalize site) = normalize site
  /\ get_domain site = urlparse_netloc (normalize site)
  /\ get_domain "https://example.com/path" = Some "example.com"
  /\ get_domain "example.com" = Some "example.com".
Proof.
  repeat split.
  - unfold normalize. destruct (has_scheme site); reflexivity.
  - apply has_scheme_normalize.
  - unfold normalize at 1. rewrite has_scheme_normalize. reflexivity.
Qed.

End DomainNormalizer.

(** ** Image validator *)

(** The exact quotient of two integers exceeds 4 when the numerator
    exceeds four times the (positive) denominator. *)
Lemma exceeds_four (a b : Z) :
  (0 < b)%Z ->
  exceeds (inject_Z a / inject_Z b) 4 = (4 * b <? a)%Z.
Proof.
  intros Hb. unfold exceeds.
  destruct b as [|p|p]; try lia.
  destruct (Qle_bool (inject_Z a / inject_Z (Z.pos p)) 4) eqn:Hq; simpl.
  - apply Qle_bool_iff in Hq. symmetry. apply Z.ltb_ge.
    unfold Qle, Qdiv, Qmult, Qinv, inject_Z in Hq. simpl in Hq. lia.
  - symmetry. apply Z.ltb_lt.
    destruct (Z_lt_le_dec (4 * Z.pos p) a) as [Hlt|Hle]; [exact Hlt|].
    assert (Hq' : Qle_bool (inject_Z a / inject_Z (Z.pos p)) 4 = true).
    { apply Qle_bool_iff. unfold Qle, Qdiv, Qmult, Qinv, inject_Z. simpl. lia. }
    congruence.
Qed.

Section Validator.

Context `{E : Env}.

(** With a positive lower bound the program's checks are the decision
    list of the specification, in the same order. *)
Lemma is_likely_logo_refines (data : string) (min_size max_size width height : Z) :
  (0 < min_size)%Z ->
  image_size data = Some (width, height) ->
  is_likely_logo data min_size max_size
  = validator_spec min_size max_size width height.
Proof.
  intros Hmin Hsize. unfold is_likely_logo, validator_spec. rewrite Hsize.
  destruct (width <? min_size)%Z eqn:Hw; [reflexivity|].
  destruct (height <? min_size)%Z eqn:Hh; [reflexivity|].
  apply Z.ltb_ge in Hw, Hh. cbn [orb].
  rewrite !Z.gtb_ltb.
  destruct ((max_size <? width) || (max_size <? height))%Z; [reflexivity|].
  destruct (((width =? 16) && (height =? 16)) || ((width =? 32) && (height =? 32)))%Z
    eqn:Hfav.
  - rewrite bool_decide_eq_true_2; [reflexivity|].
    apply orb_true_iff in Hfav.
    destruct Hfav as [H|H]; apply andb_true_iff in H; destruct H as [H1 H2];
      apply Z.eqb_eq in H1, H2; subst; auto.
  - rewrite bool_decide_eq_false_2.
    + unfold true_div.
      destruct (Z.min width height =? 0)%Z eqn:Hz; [apply Z.eqb_eq in Hz; lia|].
      rewrite exceeds_four by lia. reflexivity.
    + intros [[= -> ->]|[= -> ->]]; discriminate Hfav.
Qed.

(** C1. With the default bounds 16 and 500 the validator answers [false]
    for a 10x10 image, [true] for 16x16 and 32x32, [false] for 600x600
    and 100x500, [true] for 100x300; on every decoded image it applies
    the lower bound, the upper bound, the favicon exception and the
    aspect-ratio test in that order; and it answers [false] when the
    image cannot be decoded. *)
Theorem is_likely_logo_defaults (data : string) :
  (image_size data = None -> is_likely_logo data 16 500 = false)
  /\ (forall width height, image_size data = Some (width, height) ->
        is_likely_logo data 16 500 = validator_spec 16 500 width height)
  /\ (image_size data = Some (10, 10)%Z -> is_likely_logo data 16 500 = false)
  /\ (image_size data = Some (16, 16)%Z -> is_likely_logo data 16 500 = true)
  /\ (image_size data = Some (32, 32)%Z -> is_likely_logo data 16 500 = true)
  /\ (image_size data = Some (600, 600)%Z -> is_likely_logo data 16 500 = false)
  /\ (image_size data = Some (100, 500)%Z -> is_likely_logo data 16 500 = false)
  /\ (image_size data = Some (100, 300)%Z -> is_likely_logo data 16 500 = true).
Proof.
  split; [intros H; unfold is_likely_logo; rewrite H; reflexivity|].
  split; [intros w h H; apply is_likely_logo_refines; [lia | exact H]|].
  repeat split; intros H;
    rewrite (is_likely_logo_refines data 16 500 _ _ eq_refl H); reflexivity.
Qed.

End Validator.

(** The six images of C1 and an undecodable one, in the test double. *)
Lemma is_likely_logo_defaults_witness :
  @is_likely_logo Mock.env "garbage" 16 500 = false
  /\ @is_likely_logo Mock.env "tiny" 16 500 = false
  /\ @is_likely_logo Mock.env "fav16" 16 500 = true
  /\ @is_likely_logo Mock.env "fav32" 16 500 = true
  /\ @is_likely_logo Mock.env "huge" 16 500 = false
  /\ @is_likely_logo Mock.env "banner" 16 500 = false
  /\ @is_likely_logo Mock.env "logo" 16 500 = true.
Proof.
  pose proof (@is_likely_logo_defaults Mock.env "garbage") as (H0 & _).
  pose proof (@is_likely_logo_defaults Mock.env "tiny") as (_ & _ & H1 & _).
  pose proof (@is_likely_logo_defaults Mock.env "fav16") as (_ & _ & _ & H2 & _).
  pose proof (@is_likely_logo_defaults Mock.env "fav32") as (_ & _ & _ & _ & H3 & _).
  pose proof (@is_likely_logo_defaults Mock.env "huge") as (_ & _ & _ & _ & _ & H4 & _).
  pose proof (@is_likely_logo_defaults Mock.env "banner")
    as (_ & _ & _ & _ & _ & _ & H5 & _).
  pose proof (@is_likely_logo_defaults Mock.env "logo")
    as (_ & _ & _ & _ & _ & _ & _ & H6).
  exact (conj (H0 eq_refl) (conj (H1 eq_refl) (conj (H2 eq_refl) (conj (H3 eq_refl)
          (conj (H4 eq_refl) (conj (H5 eq_refl) (H6 eq_refl))))))).
Defined.

(** ** HTML candidate scanner *)

Section Scanner.

Context `{E : Env}.

Lemma method1_appends (url : string) : appends (method1 url).
Proof.
  intros img acc. unfold method1.
  destruct (attr_lower (tag_get img "alt" (AStr ""))) as [alt|]; [|reflexivity].
  destruct (attr_lower (tag_get img "id" (AStr ""))) as [id_|]; [|reflexivity].
  destruct (attr_lower (tag_get img "src" (AStr ""))) as [src_lower|]; [|reflexivity].
  cbn [mbind option_bind].
  destruct (any_term_in _ _); [|cbn; by rewrite app_nil_r].
  destruct (tag_get img "src" (AStr "")) as [src|]; [|reflexivity].
  destruct (urljoin url src); reflexivity.
Qed.

Lemma method2_appends (url : string) : appends (method2 url).
Proof.
  intros link acc. unfold method2.
  destruct (any_term_in _ _); [|cbn; by rewrite app_nil_r].
  destruct (tag_get link "href" (AStr "")) as [href|[|? ?]];
    [|cbn; by rewrite app_nil_r|reflexivity].
  destruct (truthy href); [|cbn; by rewrite app_nil_r].
  destruct (urljoin url href); reflexivity.
Qed.

Lemma method3_appends : appends method3.
Proof.
  intros svg acc. unfold method3.
  destruct (attr_lower (tag_get svg "id" (AStr ""))) as [id_|]; [|reflexivity].
  cbn [mbind option_bind].
  destruct (any_term_in _ _); [reflexivity | cbn; by rewrite app_nil_r].
Qed.

(** A loop of appending bodies yields the given list followed by what
    each element emits, in the order of the elements. *)
Lemma for_each_appends {A} (body : A -> list string -> option (list string))
    (xs : list A) (logo_urls : list string) :
  appends body ->
  for_each body xs logo_urls
  = (fun ls => logo_urls ++ concat ls) <$> mapM (emitted body) xs.
Proof.
  intros Hbody. revert logo_urls.
  induction xs as [|x xs IH]; intros acc.
  - cbn. by rewrite app_nil_r.
  - cbn [for_each]. rewrite Hbody.
    change (mapM (emitted body) (x :: xs))
      with (y ← body x []; k ← mapM (emitted body) xs; mret (y :: k)).
    destruct (body x []) as [y|]; [|reflexivity].
    cbn [fmap option_fmap option_map mbind option_bind]. rewrite IH.
    destruct (mapM (emitted body) xs) as [k|]; [|reflexivity].
    cbn. by rewrite app_assoc.
Qed.

(** The three loops in sequence are the three heuristics' matches one
    after the other. *)
Lemma scan_soup_spec (url : string) (soup : Tag) :
  scan_soup url soup = scanner_spec url soup.
Proof.
  unfold scan_soup, scanner_spec.
  rewrite (for_each_appends _ _ _ (method1_appends url)).
  destruct (mapM (emitted (method1 url)) (find_all soup "img")) as [h1|];
    [|reflexivity].
  cbn [fmap option_fmap option_map mbind option_bind app].
  rewrite (for_each_appends _ _ _ (method2_appends url)).
  destruct (mapM (emitted (method2 url)) (find_all soup "link")) as [h2|];
    [|reflexivity].
  cbn [fmap option_fmap option_map mbind option_bind].
  rewrite (for_each_appends _ _ _ method3_appends).
  destruct (mapM (emitted method3) (find_all soup "svg")) as [h3|];
    [|reflexivity].
  cbn. by rewrite app_assoc.
Qed.

End Scanner.

Section ScannerClaims.

Context `{E : Env}.

(** One element on which the body raises makes the whole pass raise. *)
Lemma mapM_raises {A B} (f : A -> option B) (l : list A) (x : A) :
  x ∈ l -> f x = None -> mapM f l = None.
Proof.
  intros Hin Hx. destruct (mapM f l) as [k|] eqn:Hk; [|reflexivity].
  assert (Hall : Forall (is_Some ∘ f) l) by (apply mapM_is_Some; eauto).
  rewrite Forall_forall in Hall. destruct (Hall x Hin) as [y Hy].
  cbn in Hy. congruence.
Qed.

(** C3, amended. When the page is fetched with status 200 and no element
    makes its heuristic raise, the scanner returns the matches of the
    image heuristic in document order, then those of the link heuristic
    in document order, then those of the inline-SVG heuristic in document
    order, wherever the elements stand in the document; every matching
    element contributes its own entry, so nothing is de-duplicated.  When
    the heuristic raises on some [img], [link] or [svg] element, the
    scanner returns no candidate at all. *)
Theorem find_logo_urls_order (site : string) (w : World)
    (response : Response) (n : Net) :
  requests_get (normalize site) (net w) = (Some response, n) ->
  status_code response = 200%Z ->
  let url := normalize site in
  let soup := html_parse (text response) in
  find_logo_urls site w = (default [] (scanner_spec url soup), set_net n w)
  /\ (forall h1 h2 h3,
        mapM (emitted (method1 url)) (find_all soup "img") = Some h1 ->
        mapM (emitted (method2 url)) (find_all soup "link") = Some h2 ->
        mapM (emitted method3) (find_all soup "svg") = Some h3 ->
        fst (find_logo_urls site w) = concat h1 ++ concat h2 ++ concat h3
        /\ length (fst (find_logo_urls site w))
           = (length (concat h1) + length (concat h2) + length (concat h3))%nat)
  /\ (forall element,
        element ∈ find_all soup "img" /\ emitted (method1 url) element = None
        \/ element ∈ find_all soup "link" /\ emitted (method2 url) element = None
        \/ element ∈ find_all soup "svg" /\ emitted method3 element = None ->
        fst (find_logo_urls site w) = []).
Proof.
  intros Hget Hstatus url soup.
  assert (Hrun : find_logo_urls site w
                 = (default [] (scanner_spec url soup), set_net n w)).
  { unfold find_logo_urls. rewrite Hget, Hstatus. cbn [Z.eqb Pos.eqb negb].
    rewrite scan_soup_spec. fold url soup.
    destruct (scanner_spec url soup); reflexivity. }
  split; [exact Hrun|]. split.
  - intros h1 h2 h3 H1 H2 H3. rewrite Hrun. cbn [fst].
    unfold scanner_spec. rewrite H1, H2, H3. cbn.
    split; [reflexivity|]. rewrite !length_app. lia.
  - intros element Hraise. rewrite Hrun. cbn [fst]. unfold scanner_spec.
    destruct Hraise as [[Hin Hx] | [[Hin Hx] | [Hin Hx]]].
    + rewrite (mapM_raises _ _ _ Hin Hx). reflexivity.
    + destruct (mapM (emitted (method1 url)) _); [|reflexivity].
      cbn [mbind option_bind]. rewrite (mapM_raises _ _ _ Hin Hx). reflexivity.
    + destruct (mapM (emitted (method1 url)) _); [|reflexivity].
      cbn [mbind option_bind].
      destruct (mapM (emitted (method2 url)) _); [|reflexivity].
      cbn [mbind option_bind]. rewrite (mapM_raises _ _ _ Hin Hx). reflexivity.
Qed.

(** C10. An image without [src], or with an empty one, whose alt text,
    class list or id holds one of the terms is emitted, and its candidate
    is the page URL itself; a link without [href], or with an empty one,
    emits nothing. *)
Theorem missing_src_emits_missing_href_skips (url : string) :
  (forall img alt id_ logo_urls,
      tag_attrs img !! "src" = None \/ tag_attrs img !! "src" = Some (AStr "") ->
      attr_lower (tag_get img "alt" (AStr "")) = Some alt ->
      attr_lower (tag_get img "id" (AStr "")) = Some id_ ->
      any_term_in ["logo"; "brand"; "header-image"]
        [alt; attr_join_lower (tag_get img "class" (AList [])); id_] = true ->
      method1 url img logo_urls = Some (logo_urls ++ [url]))
  /\ (forall link logo_urls,
        tag_attrs link !! "href" = None \/ tag_attrs link !! "href" = Some (AStr "") ->
        method2 url link logo_urls = Some logo_urls).
Proof.
  split.
  - intros img alt id_ acc Hsrc Halt Hid Hany. unfold method1.
    assert (Hget : tag_get img "src" (AStr "") = AStr "").
    { unfold tag_get. destruct Hsrc as [-> | ->]; reflexivity. }
    rewrite Halt, Hid, Hget. cbn [mbind option_bind attr_lower lower].
    assert (Hmatch : any_term_in ["logo"; "brand"; "header-image"]
              [""; alt; attr_join_lower (tag_get img "class" (AList [])); id_]
            = true).
    { revert Hany. unfold any_term_in. cbn [existsb]. 
      change (contains "logo" "") with false.
      change (contains "brand" "") with false.
      change (contains "header-image" "") with false.
      cbn [orb]. auto. }
    rewrite Hmatch. unfold urljoin. destruct (truthy url) eqn:Hurl; cbn.
    + reflexivity.
    + destruct url; [reflexivity | discriminate].
  - intros link acc Hhref. unfold method2.
    assert (Hget : tag_get link "href" (AStr "") = AStr "").
    { unfold tag_get. destruct Hhref as [-> | ->]; reflexivity. }
    rewrite Hget. cbn [truthy]. destruct (any_term_in _ _); reflexivity.
Qed.

End ScannerClaims.

(** C3 as stated fails: the page of [c.com] holds a logo image, which
    the image heuristic matches, and a favicon link with the [href]
    [//[], on which [urljoin] raises; the handler of the scanner turns
    that into an empty result, and the image is not emitted. *)
Lemma raising_link_empties_scan :
  fst (@requests_get Mock3.env "https://c.com" [])
  = Some (mkResponse 200 Mock3.page_markup Mock3.page_markup (Some "text/html"))
  /\ find_all Mock3.page "img" = [Mock3.logo_img]
  /\ @method1 Mock3.env "https://c.com" Mock3.logo_img []
     = Some ["https://c.com/logo.png"]
  /\ find_all Mock3.page "link" = [Mock3.icon_link]
  /\ @method2 Mock3.env "https://c.com" Mock3.icon_link [] = None
  /\ fst (@find_logo_urls Mock3.env "c.com" Mock3.start) = [].
Proof. repeat split; vm_compute; reflexivity. Qed.

(** C3 on the test page: the images come first although the SVG and the
    links stand before them in the document, and the logo that appears
    twice is listed twice. *)
Lemma find_logo_urls_order_witness :
  @find_logo_urls Mock.env "a.com" Mock.start
  = (["https://a.com/banner.png"; "https://a.com/logo.png"; "https://a.com/logo.png";
      "https://a.com"; "https://a.com/favicon.ico";
      "data:image/svg+xml;base64,<svg class=site-logo></svg>"],
     @mkWorld Mock.env ["https://a.com"] ∅ []).
Proof.
  pose proof (@find_logo_urls_order Mock.env "a.com" Mock.start
                (mkResponse 200 Mock.page_markup Mock.page_markup (Some "text/html"))
                ["https://a.com"] eq_refl eq_refl) as [H _].
  rewrite H. vm_compute. reflexivity.
Defined.

(** C10 on the test page: the image without [src] and the link without
    [href]. *)
Lemma missing_src_emits_missing_href_skips_witness :
  @method1 Mock.env "https://a.com"
     (Mock.leaf "img" [("alt", AStr "Company logo")]) []
  = Some ["https://a.com"]
  /\ @method2 Mock.env "https://a.com"
       (Mock.leaf "link" [("rel", AList ["icon"])]) []
     = Some [].
Proof.
  pose proof (@missing_src_emits_missing_href_skips Mock.env "https://a.com")
    as [Himg Hlink].
  split.
  - apply (Himg (Mock.leaf "img" [("alt", AStr "Company logo")])
             "company logo" "" []).
    + left. vm_compute. reflexivity.
    + vm_compute. reflexivity.
    + vm_compute. reflexivity.
    + vm_compute. reflexivity.
  - apply (Hlink (Mock.leaf "link" [("rel", AList ["icon"])]) []).
    left. vm_compute. reflexivity.
Defined.

(** ** Logo fetcher *)

Section Split.

Lemma split_aux_cons (sep : string) (skip : nat) (cur : list ascii) (s : string) :
  exists piece rest, split_aux sep skip cur s = piece :: rest.
Proof.
  revert skip cur. induction s as [|c s IH]; intros skip cur; cbn [split_aux].
  - eauto.
  - destruct skip as [|k]; [|apply IH].
    destruct (String.prefix sep (String c s)); [eauto | apply IH].
Qed.



(** Splitting a data URL: the first piece is the text before [base64,],
    the others are the pieces of the payload. *)
Lemma split_data_url (payload : string) :
  split ("data:image/svg+xml;base64," +:+ payload) "base64,"
  = "data:image/svg+xml;" :: split payload "base64,".
Proof.
  unfold split. cbv [String.append]. simpl.
  destruct payload; reflexivity.
Qed.

End Split.

Section Fetcher.

Context `{E : Env}.

Lemma extension_in (content_type url ext : string) :
  extension content_type url = Some ext -> ext ∈ extensions.
Proof.
  unfold extension, extensions.
  repeat match goal with
         | |- context [if ?b then _ else _] => destruct b
         | |- Some _ = Some _ -> _ => intros [= <-]; set_solver
         end.
  destruct (urlparse_path url) as [path|]; [|discriminate]. cbn.
  repeat match goal with
         | |- context [if ?b then _ else _] => destruct b
         | |- Some _ = Some _ -> _ => intros [= <-]; set_solver
         end.
Qed.

(** What one call of [download_logo] does to the world: it is logged; it
    either returns nothing and leaves the files alone, or returns the
    path of one of the domain's targets and writes that file. *)
Lemma download_logo_cases (url domain output_folder : string) (w : World) :
  let '(result, w') := download_logo url domain output_folder w in
  calls w' = calls w ++ [url]
  /\ ((result = None /\ files w' = files w)
      \/ exists ext data,
           ext ∈ extensions
           /\ result = Some (target output_folder domain ext)
           /\ files w' = <[target output_folder domain ext := data]> (files w)).
Proof.
  unfold download_logo, download_logo_body.
  destruct (startswith url "data:image/svg+xml;base64,").
  - destruct (split url "base64," !! 1%nat) as [svg_content|];
      [|split; [reflexivity|]; left; split; reflexivity].
    destruct (file_open _); [|split; [reflexivity|]; left; split; reflexivity].
    split; [reflexivity|]. right. exists ".svg", svg_content.
    split; [unfold extensions; set_solver|]. split; reflexivity.
  - cbn [net log_call].
    destruct (requests_get url (net w)) as [[response|] n].
    + destruct (negb (status_code response =? 200)%Z);
        [split; [reflexivity|]; left; split; reflexivity|].
      destruct (negb (is_likely_logo (content response) 16 500));
        [split; [reflexivity|]; left; split; reflexivity|].
      destruct (extension _ url) as [ext|] eqn:Hext;
        [|split; [reflexivity|]; left; split; reflexivity].
      destruct (file_open _); [|split; [reflexivity|]; left; split; reflexivity].
      split; [reflexivity|]. right. exists ext, (content response).
      split; [exact (extension_in _ _ _ Hext)|]. split; reflexivity.
    + split; [reflexivity|]. left. split; reflexivity.
Qed.

Lemma target_truthy (output_folder domain ext : string) :
  truthy (target output_folder domain ext) = true.
Proof.
  assert (Hb : truthy (domain +:+ " - logo" +:+ ext) = true)
    by (apply truthy_append_r; reflexivity).
  unfold target, path_join.
  destruct (startswith _ "/"); [exact Hb|].
  destruct (negb (truthy output_folder) || endswith output_folder "/").
  - by apply truthy_append_r.
  - apply truthy_append_r. reflexivity.
Qed.

(** A returned path is never the empty string, so [if file_path:] tests
    exactly whether [download_logo] returned a path. *)
Lemma download_logo_truthy (url domain output_folder : string) (w : World) :
  truthy_path (fst (download_logo url domain output_folder w))
  = bool_decide (is_Some (fst (download_logo url domain output_folder w))).
Proof.
  pose proof (download_logo_cases url domain output_folder w) as H.
  destruct (download_logo url domain output_folder w) as [result w'].
  destruct H as [_ [[-> _] | (ext & data & _ & -> & _)]]; cbn.
  - reflexivity.
  - rewrite target_truthy. reflexivity.
Qed.

(** C6. For a candidate that is not an inline-SVG data URL, a response
    whose status is not 200, or whose bytes the validator rejects, gives
    no result and leaves every file as it was; more generally, whenever
    [download_logo] gives no result the files are unchanged. *)
Theorem download_logo_failure_writes_nothing
    (url domain output_folder : string) (w : World)
    (response : Response) (n : Net) :
  startswith url "data:image/svg+xml;base64," = false ->
  requests_get url (net w) = (Some response, n) ->
  status_code response <> 200%Z
  \/ is_likely_logo (content response) 16 500 = false ->
  fst (download_logo url domain output_folder w) = None
  /\ files (snd (download_logo url domain output_folder w)) = files w
  /\ forall url' w',
       fst (download_logo url' domain output_folder w') = None ->
       files (snd (download_logo url' domain output_folder w')) = files w'.
Proof.
  intros Hurl Hget Hbad. split; [|split].
  - unfold download_logo, download_logo_body. rewrite Hurl. cbn [net log_call].
    rewrite Hget. destruct Hbad as [Hstatus | Hlogo].
    + apply Z.eqb_neq in Hstatus. rewrite Hstatus. reflexivity.
    + rewrite Hlogo. destruct (negb _); reflexivity.
  - unfold download_logo, download_logo_body. rewrite Hurl. cbn [net log_call].
    rewrite Hget. destruct Hbad as [Hstatus | Hlogo].
    + apply Z.eqb_neq in Hstatus. rewrite Hstatus. reflexivity.
    + rewrite Hlogo. destruct (negb _); reflexivity.
  - intros url' w' Hnone.
    pose proof (download_logo_cases url' domain output_folder w') as H.
    destruct (download_logo url' domain output_folder w') as [result w''].
    cbn in Hnone |- *. subst result.
    destruct H as [_ [[_ Hfiles] | (ext & data & _ & [=] & _)]]. exact Hfiles.
Qed.

End Fetcher.

(** C6 in the test double: the banner fails validation, [gone.png]
    answers 404; neither writes a file. *)
Lemma download_logo_failure_writes_nothing_witness :
  (fst (@download_logo Mock.env "https://a.com/banner.png" "a.com" "logo" Mock.start)
   = None
   /\ files (snd (@download_logo Mock.env "https://a.com/banner.png" "a.com" "logo"
                    Mock.start)) = ∅)
  /\ (fst (@download_logo Mock.env "https://a.com/gone.png" "a.com" "logo" Mock.start)
      = None
      /\ files (snd (@download_logo Mock.env "https://a.com/gone.png" "a.com" "logo"
                       Mock.start)) = ∅).
Proof.
  split.
  - pose proof (@download_logo_failure_writes_nothing Mock.env
                  "https://a.com/banner.png" "a.com" "logo" Mock.start
                  (mkResponse 200 "" "banner" (Some "image/png"))
                  ["https://a.com/banner.png"] eq_refl eq_refl
                  (or_intror eq_refl)) as (H1 & H2 & _).
    exact (conj H1 H2).
  - assert (Hstatus : 404%Z <> 200%Z) by discriminate.
    pose proof (@download_logo_failure_writes_nothing Mock.env
                  "https://a.com/gone.png" "a.com" "logo" Mock.start
                  (mkResponse 404 "" "logo" (Some "image/png"))
                  ["https://a.com/gone.png"] eq_refl eq_refl
                  (or_introl Hstatus)) as (H1 & H2 & _).
    exact (conj H1 H2).
Defined.

(** ** Inline SVG candidates *)

Section InlineSvg.

Context `{E : Env}.

(** An inline-SVG candidate is handled without a request and without
    validation.  When its [.svg] target can be opened, the download
    yields that target, and what is written is the first piece of the
    markup split at [base64,]; when [open] raises, there is no result and
    no file. *)
Lemma download_inline_svg (markup domain output_folder : string) (w : World) :
  let url := "data:image/svg+xml;base64," +:+ markup in
  exists svg_content rest,
    split markup "base64," = svg_content :: rest
    /\ download_logo url domain output_folder w
       = if file_open (target output_folder domain ".svg")
         then (Some (target output_folder domain ".svg"),
               write_file (target output_folder domain ".svg") svg_content
                 (log_call url w))
         else (None, log_call url w).
Proof.
  intros url. unfold split at 1.
  destruct (split_aux_cons "base64," 0 [] markup) as (piece & rest & Hsplit).
  exists piece, rest. split; [exact Hsplit|].
  unfold download_logo, download_logo_body, startswith.
  subst url. rewrite prefix_append, split_data_url.
  unfold split. rewrite Hsplit. reflexivity.
Qed.




(** C5 at the failing input: the markup of an inline SVG with an embedded
    raster image contains [base64,]; the file written for it (the file
    system letting it be opened) holds the markup only up to that text,
    not the whole markup. *)
Theorem inline_svg_truncated_at_base64 (w : World) :
  file_open "logo/a.com - logo.svg" = true ->
  let url := "data:image/svg+xml;base64," +:+ Mock.embedded_svg in
  let cut := "<svg class=" +:+ Mock.dq +:+ "logo" +:+ Mock.dq
             +:+ "><image href=" +:+ Mock.dq +:+ "data:image/png;" in
  download_logo url "a.com" "logo" w
  = (Some "logo/a.com - logo.svg",
     write_file "logo/a.com - logo.svg" cut (log_call url w))
  /\ files (snd (download_logo url "a.com" "logo" w)) !! "logo/a.com - logo.svg"
     = Some cut
  /\ cut <> Mock.embedded_svg.
Proof.
  intros Hopen url cut.
  destruct (download_inline_svg Mock.embedded_svg "a.com" "logo" w)
    as (piece & rest & Hsplit & Hrun).
  assert (Hpiece : piece = cut).
  { assert (Hhd : head (split Mock.embedded_svg "base64,") = Some cut)
      by (vm_compute; reflexivity).
    rewrite Hsplit in Hhd. by injection Hhd. }
  subst piece. fold url in Hrun.
  change (target "logo" "a.com" ".svg") with "logo/a.com - logo.svg" in Hrun.
  rewrite Hopen in Hrun. split; [|split].
  - rewrite Hrun. reflexivity.
  - rewrite Hrun. cbn [snd files write_file]. apply lookup_insert_eq.
  - intros Heq. apply (f_equal String.length) in Heq. vm_compute in Heq.
    discriminate Heq.
Qed.

End InlineSvg.

(** C5 in the test double: the file written for the inline SVG with an
    embedded image ends before [base64,]. *)
Lemma inline_svg_truncated_at_base64_witness :
  files (snd (@download_logo Mock.env
                ("data:image/svg+xml;base64," +:+ Mock.embedded_svg)
                "a.com" "logo" Mock.start))
    !! "logo/a.com - logo.svg"
  = Some ("<svg class=" +:+ Mock.dq +:+ "logo" +:+ Mock.dq
          +:+ "><image href=" +:+ Mock.dq +:+ "data:image/png;").
Proof.
  pose proof (@inline_svg_truncated_at_base64 Mock.env Mock.start eq_refl)
    as (_ & H & _).
  exact H.
Defined.

(** ** Site processor *)

Section Processor.

Context `{E : Env}.

Lemma find_logo_urls_frame (site : string) (w : World) :
  files (snd (find_logo_urls site w)) = files w
  /\ calls (snd (find_logo_urls site w)) = calls w.
Proof.
  unfold find_logo_urls.
  destruct (requests_get (normalize site) (net w)) as [[response|] n];
    [|split; reflexivity].
  destruct (negb _); [split; reflexivity|].
  destruct (scan_soup _ _); split; reflexivity.
Qed.

(** The failed downloads are all logged, in order. *)
Lemma all_fail_calls (pre : list string) (domain output_folder : string)
    (w w1 : World) :
  all_fail pre domain output_folder w = Some w1 ->
  calls w1 = calls w ++ pre.
Proof.
  revert w. induction pre as [|url pre IH]; intros w; cbn [all_fail].
  - intros [= <-]. by rewrite app_nil_r.
  - pose proof (download_logo_cases url domain output_folder w) as Hcases.
    destruct (download_logo url domain output_folder w) as [[path|] w'];
      [discriminate|].
    destruct Hcases as [Hcalls _]. intros Hrest.
    rewrite (IH _ Hrest), Hcalls, <- app_assoc. reflexivity.
Qed.

(** The loop walks over the failing candidates and stops at the first one
    that is downloaded. *)
Lemma download_first_stops (pre post : list string) (c path domain output_folder : string)
    (w w1 w2 : World) :
  all_fail pre domain output_folder w = Some w1 ->
  download_logo c domain output_folder w1 = (Some path, w2) ->
  download_first (pre ++ c :: post) domain output_folder w = (true, w2).
Proof.
  revert w. induction pre as [|url pre IH]; intros w; cbn [all_fail app download_first].
  - intros [= <-] Hc.
    pose proof (download_logo_truthy c domain output_folder w) as Htruthy.
    rewrite Hc in Htruthy |- *. cbn [fst] in Htruthy. rewrite Htruthy.
    rewrite bool_decide_eq_true_2 by eauto. reflexivity.
  - destruct (download_logo url domain output_folder w) as [[p|] w'];
      [discriminate|].
    cbn [truthy_path]. apply IH.
Qed.

(** C2. When the scanner returned the candidates [pre ++ c :: post], every
    download of [pre] gives no result and the download of [c] returns a
    path, the site processor succeeds in the world that download left,
    and the downloads it attempted are exactly those of [pre] and then
    [c], in order: no candidate of [post] is attempted. *)
Theorem process_website_stops_at_first_success
    (website output_folder domain c path : string) (pre post : list string)
    (w w0 w1 w2 : World) :
  get_domain website = Some domain ->
  find_logo_urls website w = (pre ++ c :: post, w0) ->
  all_fail pre domain output_folder w0 = Some w1 ->
  download_logo c domain output_folder w1 = (Some path, w2) ->
  process_website website output_folder w = (Finished true, w2)
  /\ calls w2 = calls w ++ pre ++ [c].
Proof.
  intros Hdomain Hscan Hpre Hc. split.
  - unfold process_website. rewrite Hdomain, Hscan.
    rewrite (download_first_stops pre post c path domain output_folder w0 w1 w2 Hpre Hc).
    destruct pre; reflexivity.
  - pose proof (download_logo_cases c domain output_folder w1) as Hcases.
    rewrite Hc in Hcases. destruct Hcases as [Hcalls _].
    rewrite Hcalls, (all_fail_calls _ _ _ _ _ Hpre).
    pose proof (find_logo_urls_frame website w) as [_ Hframe].
    rewrite Hscan in Hframe. cbn [snd] in Hframe.
    rewrite Hframe, <- app_assoc. reflexivity.
Qed.

End Processor.

(** C2 in the test double: of the six candidates of [a.com] the banner
    fails validation, the logo is downloaded, and the four after it are
    never requested. *)
Lemma process_website_stops_at_first_success_witness :
  fst (@process_website Mock.env "a.com" "logo" Mock.start) = Finished true
  /\ calls (snd (@process_website Mock.env "a.com" "logo" Mock.start))
     = ["https://a.com/banner.png"; "https://a.com/logo.png"].
Proof.
  pose proof (@process_website_stops_at_first_success Mock.env
    "a.com" "logo" "a.com" "https://a.com/logo.png" "logo/a.com - logo.png"
    ["https://a.com/banner.png"]
    ["https://a.com/logo.png"; "https://a.com"; "https://a.com/favicon.ico";
     "data:image/svg+xml;base64,<svg class=site-logo></svg>"]
    Mock.start
    (@mkWorld Mock.env ["https://a.com"] ∅ [])
    (@mkWorld Mock.env ["https://a.com"; "https://a.com/banner.png"] ∅
       ["https://a.com/banner.png"])
    (@mkWorld Mock.env
       ["https://a.com"; "https://a.com/banner.png"; "https://a.com/logo.png"]
       {[ "logo/a.com - logo.png" := "logo" ]}
       ["https://a.com/banner.png"; "https://a.com/logo.png"])) as H.
  destruct H as [Hrun Hcalls].
  - reflexivity.
  - vm_compute. reflexivity.
  - vm_compute. reflexivity.
  - vm_compute. reflexivity.
  - rewrite Hrun. split; reflexivity.
Defined.

(** ** Write targets *)

Section Targets.

Context `{E : Env}.

Lemma until_delim_no_slash (s : string) : mem_char "/" (until_delim s) = false.
Proof.
  induction s as [|c s IH]; [reflexivity|]. cbn [until_delim].
  destruct (is_delim c) eqn:Hc; [reflexivity|].
  cbn [mem_char]. rewrite IH, orb_false_r.
  unfold is_delim in Hc. cbn [mem_char] in Hc.
  apply orb_false_iff in Hc as [Hc _]. by rewrite Ascii.eqb_sym.
Qed.

Lemma netloc_text_no_slash (url : string) : mem_char "/" (netloc_text url) = false.
Proof.
  unfold netloc_text. destruct (split_scheme _) as [scheme rest].
  destruct rest as [|c1 [|c2 r]]; try reflexivity.
  destruct (Ascii.eqb c1 "/" && Ascii.eqb c2 "/"); [|reflexivity].
  apply until_delim_no_slash.
Qed.

(** When [urlparse] accepts the network location, the domain is that
    text. *)
Lemma get_domain_netloc (site domain : string) :
  get_domain site = Some domain -> domain = netloc_text (normalize site).
Proof.
  unfold get_domain, urlparse_netloc.
  destruct (xorb _ _); [discriminate|].
  destruct (_ && _ && _); [discriminate|].
  destruct (negb _); [discriminate|].
  by intros [= <-].
Qed.

(** A domain holds no slash. *)
Lemma get_domain_no_slash (site domain : string) :
  get_domain site = Some domain -> mem_char "/" domain = false.
Proof.
  intros H. rewrite (get_domain_netloc _ _ H). apply netloc_text_no_slash.
Qed.

Lemma file_name_not_absolute (domain ext : string) :
  mem_char "/" domain = false ->
  startswith (domain +:+ " - logo" +:+ ext) "/" = false.
Proof.
  destruct domain as [|c domain]; [reflexivity|]. cbn [mem_char].
  intros H. apply orb_false_iff in H as [H _].
  unfold startswith. rewrite append_cons. cbn [String.prefix].
  destruct (ascii_dec "/" c) as [<-|_]; [discriminate H|reflexivity].
Qed.

Lemma suffix_length (ext : string) :
  ext ∈ extensions -> String.length (" - logo" +:+ ext) = 11%nat.
Proof.
  unfold extensions. intros H.
  repeat (apply elem_of_cons in H as [->|H]; [reflexivity|]).
  by apply elem_of_nil in H.
Qed.

(** Domains without a slash that share a target are the same domain. *)
Lemma target_inj (output_folder d1 d2 e1 e2 : string) :
  mem_char "/" d1 = false -> mem_char "/" d2 = false ->
  e1 ∈ extensions -> e2 ∈ extensions ->
  target output_folder d1 e1 = target output_folder d2 e2 ->
  d1 = d2.
Proof.
  intros H1 H2 He1 He2. unfold target, path_join.
  rewrite (file_name_not_absolute d1 e1 H1), (file_name_not_absolute d2 e2 H2).
  intros Heq.
  assert (Hnames : d1 +:+ " - logo" +:+ e1 = d2 +:+ " - logo" +:+ e2).
  { destruct (negb (truthy output_folder) || endswith output_folder "/").
    - exact (append_inj_l _ _ _ Heq).
    - apply append_inj_l in Heq. exact (append_inj_l _ _ _ Heq). }
  apply append_inj_same_length in Hnames; [tauto|].
  by rewrite !suffix_length.
Qed.

(** The loop writes at targets of the domain only. *)
Lemma download_first_writes (logo_urls : list string) (domain output_folder : string)
    (w : World) (path : string) :
  files (snd (download_first logo_urls domain output_folder w)) !! path
    <> files w !! path ->
  exists ext, ext ∈ extensions /\ path = target output_folder domain ext.
Proof.
  revert w. induction logo_urls as [|url rest IH]; intros w; cbn [download_first].
  - intros H. by elim H.
  - pose proof (download_logo_cases url domain output_folder w) as Hcases.
    destruct (download_logo url domain output_folder w) as [result w'].
    destruct Hcases as [_ Hfiles].
    assert (Hstep : files w' !! path <> files w !! path ->
                    exists ext, ext ∈ extensions
                                /\ path = target output_folder domain ext).
    { destruct Hfiles as [[_ ->] | (ext & data & Hext & _ & ->)].
      - intros H. by elim H.
      - intros H. exists ext. split; [exact Hext|].
        destruct (decide (target output_folder domain ext = path)) as [<-|Hne];
          [reflexivity|].
        elim H. by apply lookup_insert_ne. }
    destruct (truthy_path result); cbn [snd]; [exact Hstep|].
    intros H.
    destruct (decide (files w' !! path = files w !! path)) as [Hsame|Hdiff];
      [|by apply Hstep].
    apply (IH w'). by rewrite Hsame.
Qed.

Lemma process_website_writes (site output_folder : string) (w : World) (path : string) :
  writes site output_folder w path ->
  exists domain ext,
    get_domain site = Some domain
    /\ ext ∈ extensions
    /\ path = target output_folder domain ext.
Proof.
  unfold writes, process_website.
  destruct (get_domain site) as [domain|]; [|intros H; by elim H].
  pose proof (find_logo_urls_frame site w) as [Hframe _].
  destruct (find_logo_urls site w) as [logo_urls w0]. cbn [snd] in Hframe.
  destruct logo_urls as [|url rest]; [cbn [snd]; rewrite Hframe; intros H; by elim H|].
  pose proof (download_first_writes (url :: rest) domain output_folder w0 path) as Hloop.
  destruct (download_first (url :: rest) domain output_folder w0) as [success w1].
  cbn [snd] in Hloop |- *. rewrite <- Hframe. intros H.
  destruct (Hloop H) as (ext & Hext & ->). eauto.
Qed.

(** C8, amended. Two sites of different domains never write the same
    file: a path written while processing one is not written while
    processing the other, whatever the worlds they run in. *)
Theorem distinct_domains_disjoint_targets
    (site1 site2 domain1 domain2 output_folder path : string) (w1 w2 : World) :
  get_domain site1 = Some domain1 ->
  get_domain site2 = Some domain2 ->
  domain1 <> domain2 ->
  writes site1 output_folder w1 path ->
  ~ writes site2 output_folder w2 path.
Proof.
  intros Hd1 Hd2 Hne Hw1 Hw2.
  destruct (process_website_writes _ _ _ _ Hw1) as (d1 & e1 & Hd1' & He1 & Hp1).
  destruct (process_website_writes _ _ _ _ Hw2) as (d2 & e2 & Hd2' & He2 & Hp2).
  rewrite Hd1 in Hd1'. rewrite Hd2 in Hd2'.
  injection Hd1' as <-. injection Hd2' as <-.
  apply Hne. apply (target_inj output_folder domain1 domain2 e1 e2);
    eauto using get_domain_no_slash. congruence.
Qed.

End Targets.

(** C8 as stated fails: [a.com] and [https://a.com] are different strings,
    both survive the de-duplication of the column, and processing either
    writes the same file. *)
Lemma distinct_sites_same_target :
  "a.com" <> "https://a.com"
  /\ unique (dropna [Some "a.com"; Some "https://a.com"]) = ["a.com"; "https://a.com"]
  /\ @writes Mock.env "a.com" "logo" Mock.start "logo/a.com - logo.png"
  /\ @writes Mock.env "https://a.com" "logo" Mock.start "logo/a.com - logo.png".
Proof.
  split; [discriminate|]. split; [vm_compute; reflexivity|].
  split; unfold writes; vm_compute; discriminate.
Qed.

(** The amended C8 in the test double: [a.com] writes its logo, and
    processing [b.com] does not touch that file. *)
Lemma distinct_domains_disjoint_targets_witness :
  ~ @writes Mock.env "b.com" "logo" Mock.start "logo/a.com - logo.png".
Proof.
  apply (@distinct_domains_disjoint_targets Mock.env
           "a.com" "b.com" "a.com" "b.com" "logo" "logo/a.com - logo.png"
           Mock.start Mock.start).
  - reflexivity.
  - reflexivity.
  - discriminate.
  - unfold writes. vm_compute. discriminate.
Defined.

(** ** Batch runner *)

Section Batch.

Context `{E : Env}.






End Batch.




(** * Further properties *)

(** ** Image validator, any bounds *)

Section ValidatorBounds.

Context `{E : Env}.

(** X2. For an image of non-negative dimensions and any bounds, the
    validator accepts exactly when both dimensions lie within the bounds,
    neither is zero and the larger is at most four times the smaller: a
    ratio of exactly 4 passes, and the favicon sizes never change the
    answer. *)
Theorem is_likely_logo_iff (data : string) (min_size max_size width height : Z) :
  image_size data = Some (width, height) ->
  (0 <= width)%Z -> (0 <= height)%Z ->
  is_likely_logo data min_size max_size = true
  <-> (min_size <= width <= max_size)%Z
      /\ (min_size <= height <= max_size)%Z
      /\ (0 < Z.min width height)%Z
      /\ (Z.max width height <= 4 * Z.min width height)%Z.
Proof.
  intros Hsize Hw Hh. unfold is_likely_logo. rewrite Hsize.
  destruct (width <? min_size)%Z eqn:H1;
    [apply Z.ltb_lt in H1; split; [discriminate | lia]|].
  destruct (height <? min_size)%Z eqn:H2;
    [apply Z.ltb_lt in H2; split; [discriminate | lia]|].
  apply Z.ltb_ge in H1, H2. cbn [orb]. rewrite !Z.gtb_ltb.
  destruct (max_size <? width)%Z eqn:H3;
    [apply Z.ltb_lt in H3; split; [discriminate | lia]|].
  destruct (max_size <? height)%Z eqn:H4;
    [apply Z.ltb_lt in H4; split; [discriminate | lia]|].
  apply Z.ltb_ge in H3, H4. cbn [orb].
  destruct (((width =? 16) && (height =? 16)) || ((width =? 32) && (height =? 32)))%Z
    eqn:Hfav.
  - apply orb_true_iff in Hfav.
    destruct Hfav as [H|H]; apply andb_true_iff in H; destruct H as [Ha Hb];
      apply Z.eqb_eq in Ha, Hb; subst; split; auto; intros _; lia.
  - unfold true_div. destruct (Z.min width height =? 0)%Z eqn:Hz.
    + apply Z.eqb_eq in Hz. split; [discriminate | lia].
    + apply Z.eqb_neq in Hz. rewrite exceeds_four by lia.
      destruct (4 * Z.min width height <? Z.max width height)%Z eqn:Hr.
      * apply Z.ltb_lt in Hr. split; [discriminate | lia].
      * apply Z.ltb_ge in Hr. split; [lia | reflexivity].
Qed.

End ValidatorBounds.

(** X2 in the second test double: a 400x100 image has ratio exactly 4 and
    is accepted. *)
Lemma is_likely_logo_iff_witness :
  @is_likely_logo Mock2.env "wide" 16 500 = true.
Proof.
  apply (@is_likely_logo_iff Mock2.env "wide" 16 500 400 100 eq_refl);
    [lia | lia | lia].
Defined.

(** ** The link heuristic *)

Section Substring.

Lemma prefix_nil (s : string) : String.prefix "" s = true.
Proof. destruct s; reflexivity. Qed.

Lemma contains_of_prefix (q s : string) :
  String.prefix q s = true -> contains q s = true.
Proof. intros H. destruct s; cbn [contains]; rewrite H; reflexivity. Qed.

(** A text that starts with [p +:+ q] is [p] followed by a text that
    starts with [q]. *)
Lemma prefix_app_inv (p q s : string) :
  String.prefix (p +:+ q) s = true ->
  exists t, s = p +:+ t /\ String.prefix q t = true.
Proof.
  revert s. induction p as [|c p IH]; intros s.
  - rewrite append_nil_l. intros H. exists s. auto.
  - rewrite append_cons. destruct s as [|d s]; [discriminate|].
    cbn [String.prefix]. destruct (ascii_dec c d) as [<-|]; [|discriminate].
    intros H. destruct (IH s H) as (t & -> & Ht). exists t.
    rewrite append_cons. auto.
Qed.

Lemma contains_skip (p q t : string) :
  contains q t = true -> contains q (p +:+ t) = true.
Proof.
  intros H. induction p as [|c p IH]; [exact H|].
  rewrite append_cons. cbn [contains]. rewrite IH. apply orb_true_r.
Qed.

(** A text that contains [p +:+ q] contains [q]. *)
Lemma contains_suffix_of_needle (p q s : string) :
  contains (p +:+ q) s = true -> contains q s = true.
Proof.
  induction s as [|c s IH]; cbn [contains].
  - rewrite orb_false_r. intros H.
    destruct (prefix_app_inv p q "" H) as (t & Heq & Ht).
    destruct p; [|discriminate Heq]. rewrite append_nil_l in Heq. subst t.
    by rewrite Ht.
  - intros H. apply orb_true_iff in H as [H|H].
    + destruct (prefix_app_inv p q _ H) as (t & Heq & Ht).
      change (contains q (String c s) = true). rewrite Heq.
      apply contains_skip, contains_of_prefix, Ht.
    + rewrite (IH H). apply orb_true_r.
Qed.

End Substring.

Section LinkHeuristic.

Context `{E : Env}.

(** X3. The link heuristic fires exactly when the lower-cased [rel] text
    contains [icon]: the terms [shortcut icon] and [apple-touch-icon] add
    nothing.  So a link whose [rel] does not contain [icon] is skipped,
    and any link whose [rel] contains it (such as [mask-icon]) and whose
    [href] is a non-empty string is emitted with that [href] resolved
    against the page URL. *)
Theorem method2_fires_on_icon (url : string) (link : Tag) (logo_urls : list string) :
  any_term_in ["icon"; "shortcut icon"; "apple-touch-icon"] [rel_text link]
  = contains "icon" (rel_text link)
  /\ (contains "icon" (rel_text link) = false ->
      method2 url link logo_urls = Some logo_urls)
  /\ (forall href,
        contains "icon" (rel_text link) = true ->
        tag_attrs link !! "href" = Some (AStr href) ->
        truthy href = true ->
        method2 url link logo_urls
        = (icon_url ← urljoin url href; Some (logo_urls ++ [icon_url]))).
Proof.
  assert (Hterms : any_term_in ["icon"; "shortcut icon"; "apple-touch-icon"]
                     [rel_text link]
                   = contains "icon" (rel_text link)).
  { unfold any_term_in. cbn [existsb]. rewrite !orb_false_r.
    destruct (contains "icon" (rel_text link)) eqn:Hicon; [reflexivity|].
    cbn [orb].
    destruct (contains "shortcut icon" (rel_text link)) eqn:H1.
    { apply (contains_suffix_of_needle "shortcut " "icon") in H1. congruence. }
    destruct (contains "apple-touch-icon" (rel_text link)) eqn:H2.
    { apply (contains_suffix_of_needle "apple-touch-" "icon") in H2. congruence. }
    reflexivity. }
  split; [exact Hterms|].
  unfold method2. fold (rel_text link). rewrite Hterms. split.
  - intros ->. reflexivity.
  - intros href -> Hhref Htruthy. unfold tag_get. rewrite Hhref, Htruthy.
    reflexivity.
Qed.

End LinkHeuristic.

(** X3 in the second test double: the link with [rel=mask-icon] is
    emitted. *)
Lemma method2_fires_on_icon_witness :
  @method2 Mock2.env "https://b.com"
    (Mock.leaf "link" [("rel", AList ["mask-icon"]); ("href", AStr "/favicon.ico")]) []
  = Some ["https://b.com/favicon.ico"].
Proof.
  pose proof (@method2_fires_on_icon Mock2.env "https://b.com"
    (Mock.leaf "link" [("rel", AList ["mask-icon"]); ("href", AStr "/favicon.ico")])
    []) as (_ & _ & H).
  rewrite (H "/favicon.ico"); [reflexivity | vm_compute; reflexivity
                              | vm_compute; reflexivity | reflexivity].
Defined.

(** ** Domains of hosts *)

Section Hosts.

Context `{E : Env}.

Lemma delim_not_unsafe (c : ascii) : is_delim c = true -> unsafe_char c = false.
Proof.
  unfold is_delim. cbn [mem_char]. rewrite orb_false_r.
  intros H. repeat apply orb_true_iff in H as [H|H];
    apply Ascii.eqb_eq in H; subst c; reflexivity.
Qed.

Lemma host_char_parts (c : ascii) :
  host_char c = true ->
  is_ascii c = true /\ is_delim c = false /\ unsafe_char c = false
  /\ Ascii.eqb "[" c = false /\ Ascii.eqb "]" c = false.
Proof.
  unfold host_char. rewrite !andb_true_iff, !negb_true_iff.
  intros [[[Ha Hd] Hu] Hb]. cbn [mem_char] in Hb. rewrite orb_false_r in Hb.
  apply orb_false_iff in Hb as [H1 H2].
  rewrite (Ascii.eqb_sym "[" c), (Ascii.eqb_sym "]" c). auto.
Qed.

Lemma remove_unsafe_host (host rest : string) :
  all_chars host_char host = true ->
  remove_unsafe (host +:+ rest) = host +:+ remove_unsafe rest.
Proof.
  induction host as [|c host IH]; [reflexivity|].
  cbn [all_chars]. intros H. apply andb_true_iff in H as [Hc Hrest].
  apply host_char_parts in Hc as (_ & _ & Hc & _).
  rewrite !append_cons. cbn [remove_unsafe]. rewrite Hc, (IH Hrest). reflexivity.
Qed.

Lemma until_delim_host (host rest : string) :
  all_chars host_char host = true ->
  until_delim rest = "" ->
  until_delim (host +:+ rest) = host.
Proof.
  intros Hhost Hrest. induction host as [|c host IH]; [exact Hrest|].
  cbn [all_chars] in Hhost. apply andb_true_iff in Hhost as [Hc Hhost].
  apply host_char_parts in Hc as (_ & Hc & _).
  rewrite append_cons. cbn [until_delim]. rewrite Hc, (IH Hhost). reflexivity.
Qed.

Lemma until_delim_after_host (rest : string) :
  after_host rest -> until_delim (remove_unsafe rest) = "".
Proof.
  intros [-> | (c & r & -> & Hc)]; [reflexivity|].
  cbn [remove_unsafe]. rewrite (delim_not_unsafe c Hc).
  cbn [until_delim]. by rewrite Hc.
Qed.

(** A plain host is ASCII and holds no square bracket. *)
Lemma host_plain (host : string) :
  all_chars host_char host = true ->
  all_chars is_ascii host = true
  /\ mem_char "[" host = false /\ mem_char "]" host = false.
Proof.
  induction host as [|c host IH]; [auto|].
  cbn [all_chars mem_char]. intros H. apply andb_true_iff in H as [Hc Hhost].
  apply host_char_parts in Hc as (Ha & _ & _ & Hl & Hr).
  destruct (IH Hhost) as (-> & -> & ->). rewrite Ha, Hl, Hr. auto.
Qed.

Lemma netloc_text_of_host (host rest : string) :
  all_chars host_char host = true ->
  after_host rest ->
  netloc_text ("https://" +:+ host +:+ rest) = host
  /\ netloc_text ("http://" +:+ host +:+ rest) = host.
Proof.
  intros Hhost Hrest.
  assert (Hnet : until_delim (remove_unsafe (host +:+ rest)) = host).
  { rewrite (remove_unsafe_host _ _ Hhost).
    apply (until_delim_host _ _ Hhost), (until_delim_after_host _ Hrest). }
  split; unfold netloc_text; rewrite !append_cons, append_nil_l;
    simpl; exact Hnet.
Qed.

(** [urlsplit] accepts a plain host as the network location. *)
Lemma urlparse_netloc_plain (url host : string) :
  all_chars host_char host = true ->
  netloc_text url = host ->
  urlparse_netloc url = Some host.
Proof.
  intros Hhost Hnet. destruct (host_plain host Hhost) as (Ha & Hl & Hr).
  unfold urlparse_netloc, checknetloc. rewrite Hnet, Hl, Hr, Ha.
  cbn [xorb andb]. rewrite orb_true_r. reflexivity.
Qed.

(** X4. For a plain host (ASCII characters, none of them a delimiter, a
    square bracket or a character [urlsplit] removes; it may hold a user
    name and a port), followed by nothing or by a path, query or
    fragment, [get_domain] returns the host itself, whether the site is
    written with [https://], with [http://] or, when it does not itself
    start with such a prefix, bare.  A site and its schemed forms
    therefore share one domain. *)
Theorem get_domain_of_host (host rest : string) :
  all_chars host_char host = true ->
  after_host rest ->
  get_domain ("https://" +:+ host +:+ rest) = Some host
  /\ get_domain ("http://" +:+ host +:+ rest) = Some host
  /\ (has_scheme (host +:+ rest) = false ->
      get_domain (host +:+ rest) = Some host).
Proof.
  intros Hhost Hrest.
  destruct (netloc_text_of_host host rest Hhost Hrest) as [Hs Hp].
  apply (urlparse_netloc_plain _ _ Hhost) in Hs, Hp.
  assert (Hhttps : normalize ("https://" +:+ host +:+ rest)
                   = "https://" +:+ host +:+ rest).
  { unfold normalize, has_scheme, startswith_any, startswith. cbn [existsb].
    rewrite (prefix_append "https://"), orb_true_l, orb_true_r. reflexivity. }
  assert (Hhttp : normalize ("http://" +:+ host +:+ rest)
                  = "http://" +:+ host +:+ rest).
  { unfold normalize, has_scheme, startswith_any, startswith. cbn [existsb].
    rewrite (prefix_append "http://"). reflexivity. }
  unfold get_domain. rewrite Hhttps, Hhttp. split; [exact Hs|]. split; [exact Hp|].
  intros Hbare. unfold normalize. rewrite Hbare. exact Hs.
Qed.

End Hosts.

(** X4 at a host with a port, followed by a path and a query. *)
Lemma get_domain_of_host_witness :
  @get_domain Mock.env "https://example.com:8080/about?lang=en"
  = Some "example.com:8080"
  /\ @get_domain Mock.env "http://example.com:8080/about?lang=en"
     = Some "example.com:8080"
  /\ @get_domain Mock.env "example.com:8080/about?lang=en"
     = Some "example.com:8080".
Proof.
  assert (Hrest : after_host "/about?lang=en").
  { right. exists "/"%char, "about?lang=en". split; reflexivity. }
  destruct (@get_domain_of_host Mock.env "example.com:8080" "/about?lang=en"
              eq_refl Hrest) as (H1 & H2 & H3).
  exact (conj H1 (conj H2 (H3 eq_refl))).
Defined.

(** ** Site processor: failure and the files it writes *)

Section ProcessorOutcomes.

Context `{E : Env}.






(** X7. When the page cannot be fetched (the request raises) or answers
    with a status other than 200, the scanner returns no candidate; and
    whatever it returns, scanning writes no file and starts no
    download. *)
Theorem find_logo_urls_fetch_failure (site : string) (w : World) :
  (fst (requests_get (normalize site) (net w)) = None ->
   fst (find_logo_urls site w) = [])
  /\ (forall response,
        fst (requests_get (normalize site) (net w)) = Some response ->
        status_code response <> 200%Z ->
        fst (find_logo_urls site w) = [])
  /\ files (snd (find_logo_urls site w)) = files w
  /\ calls (snd (find_logo_urls site w)) = calls w.
Proof.
  split; [|split].
  - unfold find_logo_urls.
    destruct (requests_get (normalize site) (net w)) as [[response|] n];
      [discriminate | reflexivity].
  - intros response. unfold find_logo_urls.
    destruct (requests_get (normalize site) (net w)) as [[r|] n];
      [|discriminate].
    cbn [fst]. intros [= ->] Hstatus. apply Z.eqb_neq in Hstatus.
    rewrite Hstatus. reflexivity.
  - unfold find_logo_urls.
    destruct (requests_get (normalize site) (net w)) as [[response|] n];
      [|split; reflexivity].
    destruct (negb _); [split; reflexivity|].
    destruct (scan_soup _ _); split; reflexivity.
Qed.

End ProcessorOutcomes.


(** ** Scanner and fetcher together *)

Section ScannerFetcher.

Context `{E : Env}.

Lemma method1_at_most_one (url : string) (img : Tag) (l : list string) :
  emitted (method1 url) img = Some l -> (length l <= 1)%nat.
Proof.
  unfold emitted, method1.
  destruct (attr_lower (tag_get img "alt" (AStr ""))); [|discriminate].
  destruct (attr_lower (tag_get img "id" (AStr ""))); [|discriminate].
  destruct (attr_lower (tag_get img "src" (AStr ""))); [|discriminate].
  cbn [mbind option_bind].
  destruct (any_term_in _ _); [|intros [= <-]; cbn; lia].
  destruct (tag_get img "src" (AStr "")) as [src|]; [|discriminate].
  destruct (urljoin url src); [|discriminate]. intros [= <-]. cbn. lia.
Qed.

Lemma method2_at_most_one (url : string) (link : Tag) (l : list string) :
  emitted (method2 url) link = Some l -> (length l <= 1)%nat.
Proof.
  unfold emitted, method2.
  destruct (any_term_in _ _); [|intros [= <-]; cbn; lia].
  destruct (tag_get link "href" (AStr "")) as [href|[|? ?]];
    [|intros [= <-]; cbn; lia|discriminate].
  destruct (truthy href); [|intros [= <-]; cbn; lia].
  destruct (urljoin url href); [|discriminate]. intros [= <-]. cbn. lia.
Qed.

Lemma method3_at_most_one (svg : Tag) (l : list string) :
  emitted method3 svg = Some l -> (length l <= 1)%nat.
Proof.
  unfold emitted, method3.
  destruct (attr_lower (tag_get svg "id" (AStr ""))); [|discriminate].
  cbn [mbind option_bind].
  destruct (any_term_in _ _); intros [= <-]; cbn; lia.
Qed.

Lemma mapM_concat_length {A} (f : A -> option (list string))
    (xs : list A) (ls : list (list string)) :
  (forall x l, f x = Some l -> (length l <= 1)%nat) ->
  mapM f xs = Some ls ->
  (length (concat ls) <= length xs)%nat.
Proof.
  intros Hf H. apply mapM_Some_1 in H.
  induction H as [|x l xs ls Hx _ IH]; [reflexivity|].
  cbn [concat]. rewrite length_app. cbn [length].
  specialize (Hf x l Hx). lia.
Qed.

(** X8. Every [img], [link] and [svg] element of the page contributes at
    most one candidate: the scanner never returns more candidates than
    the page has elements of these three kinds. *)
Theorem find_logo_urls_at_most_one_per_element (site : string) (w : World)
    (response : Response) (n : Net) :
  requests_get (normalize site) (net w) = (Some response, n) ->
  let soup := html_parse (text response) in
  (length (fst (find_logo_urls site w))
   <= length (find_all soup "img") + length (find_all soup "link")
      + length (find_all soup "svg"))%nat.
Proof.
  intros Hget soup. unfold find_logo_urls. rewrite Hget.
  destruct (negb _); [cbn; lia|].
  rewrite scan_soup_spec. fold soup. unfold scanner_spec.
  destruct (mapM (emitted (method1 (normalize site))) (find_all soup "img"))
    as [h1|] eqn:H1; [|cbn; lia].
  destruct (mapM (emitted (method2 (normalize site))) (find_all soup "link"))
    as [h2|] eqn:H2; [|cbn; lia].
  destruct (mapM (emitted method3) (find_all soup "svg"))
    as [h3|] eqn:H3; [|cbn; lia].
  cbn [mbind option_bind fst]. rewrite !length_app.
  pose proof (mapM_concat_length _ _ _ (method1_at_most_one _) H1).
  pose proof (mapM_concat_length _ _ _ (method2_at_most_one _) H2).
  pose proof (mapM_concat_length _ _ _ method3_at_most_one H3).
  lia.
Qed.



End ScannerFetcher.

(** X8 on the page of [a.com]: six candidates from five images, two
    links and one inline SVG. *)
Lemma find_logo_urls_at_most_one_per_element_witness :
  (length (fst (@find_logo_urls Mock.env "a.com" Mock.start)) <= 5 + 2 + 1)%nat.
Proof.
  exact (@find_logo_urls_at_most_one_per_element Mock.env "a.com" Mock.start
           (mkResponse 200 Mock.page_markup Mock.page_markup (Some "text/html"))
           ["https://a.com"] eq_refl).
Defined.



(** ** Batch runner: empty and clean columns *)

Section BatchMore.

Context `{E : Env}.






End BatchMore.

